(** * A shallow embedding of [pydantic_claude_sonnet_capitalofitaly.py]

    The program wraps one call to a hosted text-completion service in three
    pydantic records ([AgentMessage], [AgentQuery], [AgentResponse]) and a
    small class [ClaudeAgent] with a constructor and one method, [ask].

    Python values are embedded as an inductive type, floats as the IEEE-754
    binary64 values of the standard library's [SpecFloat], dictionaries as
    association lists in insertion order, and the effects of the program
    (the environment, the remote call, raising and catching) as a state and
    exception monad over an explicit world. *)

From Stdlib Require Import String Ascii List ZArith Bool Lia QArith Permutation.
From Stdlib Require Import Floats.SpecFloat.
Import ListNotations.

Local Open Scope string_scope.
Local Open Scope Z_scope.

(** ** Floats *)

(** A Python [float] is a binary64 value. *)
Definition is_float (f : spec_float) : bool := valid_binary 53 1024 f.

(** The integer bounds [0] and [1] of [ge=0, le=1], as the floats Python
    compares against. *)
Definition float_0 : spec_float := S754_zero false.
Definition float_1 : spec_float := S754_finite false 4503599627370496 (-52).

(** The literals [0.7], [0.2], [0.5], [2.0] and [5.0], rounded to binary64. *)
Definition float_0_7 : spec_float := S754_finite false 6305039478318694 (-53).
Definition float_0_2 : spec_float := S754_finite false 7205759403792794 (-55).
Definition float_0_5 : spec_float := S754_finite false 4503599627370496 (-53).
Definition float_2 : spec_float := S754_finite false 4503599627370496 (-51).
Definition float_5 : spec_float := S754_finite false 5629499534213120 (-50).

(** The rational number a float denotes; infinities and NaN denote none. *)
Definition SF2Q (f : spec_float) : option Q :=
  match f with
  | S754_zero _ => Some 0%Q
  | S754_finite s m e =>
      let n := cond_Zopp s (Zpos m) in
      Some match e with
           | Z0 => inject_Z n
           | Zpos p => inject_Z (n * Z.pow_pos 2 p)
           | Zneg p => Qmake n (Pos.pow 2 p)
           end
  | S754_infinity _ | S754_nan => None
  end.

(** Membership in the closed interval [[0,1]], on the denoted number. *)
Definition in_unit_interval (f : spec_float) : Prop :=
  match SF2Q f with
  | Some q => (0 <= q)%Q /\ (q <= 1)%Q
  | None => False
  end.

(** ** Python values *)

(** class AgentMessage(BaseModel): role: str; content: str *)
Record AgentMessage := { role : string; content : string }.

(** The values a caller can put into [query_params], and those the program
    builds itself. *)
#[warnings="-register-all"]
Inductive PyVal :=
| VNone
| VBool (b : bool)
| VInt (z : Z)
| VFloat (f : spec_float)
| VStr (s : string)
| VList (l : list PyVal)
| VTuple (l : list PyVal)
| VDict (d : list (string * PyVal))
| VMessage (m : AgentMessage).

(** A [dict] with string keys, in insertion order. *)
Definition PyDict := list (string * PyVal).

(** Python's [dict] holds each key once. *)
Definition well_formed_dict (d : PyDict) : Prop := NoDup (map fst d).

(** [type(v).__name__] *)
Definition type_name (v : PyVal) : string :=
  match v with
  | VNone => "NoneType"
  | VBool _ => "bool"
  | VInt _ => "int"
  | VFloat _ => "float"
  | VStr _ => "str"
  | VList _ => "list"
  | VTuple _ => "tuple"
  | VDict _ => "dict"
  | VMessage _ => "AgentMessage"
  end.

(** The one-character strings of a string, as iterating a [str] yields. *)
Fixpoint chars (s : string) : list PyVal :=
  match s with
  | EmptyString => []
  | String c rest => VStr (String c EmptyString) :: chars rest
  end.

(** ** Exceptions *)

(** One line of a pydantic [ValidationError]: the kind of failure. *)
Inductive ErrorKind := missing | greater_than_equal | less_than_equal.

(** A pydantic [ValidationError]: the model it is for and, per offending
    field, what failed. *)
Record ValidationError := {
  title : string;
  errors : list (string * ErrorKind)
}.

(** The exceptions deriving from [Exception]: pydantic's [ValidationError],
    and any other, given by its class name and its [str]. *)
Inductive PyException :=
| PydanticValidationError (e : ValidationError)
| Exception_ (cls : string) (msg : string).

Definition ValueError (msg : string) : PyException := Exception_ "ValueError" msg.
Definition TypeError (msg : string) : PyException := Exception_ "TypeError" msg.
Definition AttributeError (msg : string) : PyException := Exception_ "AttributeError" msg.
Definition IndexError (msg : string) : PyException := Exception_ "IndexError" msg.

(** ** The schema records *)

(** A required field ([Field(...)]) that is absent is reported [missing]. *)
Definition required {A : Type} (name : string) (arg : option A) : list (string * ErrorKind) :=
  match arg with
  | Some _ => []
  | None => [(name, missing)]
  end.

(** AgentMessage(role=..., content=...): both fields are required strings;
    the annotation [str] puts no restriction on the text of [role]. *)
Definition AgentMessage_new (role_arg content_arg : option string)
  : ValidationError + AgentMessage :=
  match role_arg, content_arg with
  | Some r, Some c => inr {| role := r; content := c |}
  | _, _ => inl {| title := "AgentMessage";
                   errors := required "role" role_arg ++ required "content" content_arg |}
  end.

(** class AgentQuery(BaseModel).  The attributes of an instance hold Python
    values: construction stores validated ones, assignment stores any. *)
Record AgentQuery := {
  messages : PyVal;
  model : PyVal;
  max_tokens : PyVal;
  temperature : PyVal
}.

(** temperature: float = Field(default=0.7, ge=0, le=1): the checks run on
    a supplied value; pydantic tests [le] before [ge], and the first failure
    is the one reported (NaN, which fails both, is reported against [le]). *)
Definition check_temperature (t : spec_float) : list (string * ErrorKind) :=
  if negb (SFleb t float_1) then [("temperature", less_than_equal)]
  else if negb (SFleb float_0 t) then [("temperature", greater_than_equal)]
  else [].

Definition default_model : string := "claude-3-7-sonnet-20250219".
Definition default_max_tokens : Z := 1000.
Definition default_temperature : spec_float := float_0_7.

(** AgentQuery(messages=..., model=..., max_tokens=..., temperature=...):
    every field has a default; defaults are not validated; [max_tokens] is
    declared [int] with no bound. *)
Definition AgentQuery_new (messages_arg : option (list AgentMessage))
    (model_arg : option string) (max_tokens_arg : option Z)
    (temperature_arg : option spec_float) : ValidationError + AgentQuery :=
  let errs := match temperature_arg with
              | Some t => check_temperature t
              | None => []
              end in
  match errs with
  | [] => inr {| messages := VList (map VMessage
                                      match messages_arg with
                                      | Some ms => ms
                                      | None => []
                                      end);
                 model := VStr match model_arg with
                               | Some s => s
                               | None => default_model
                               end;
                 max_tokens := VInt match max_tokens_arg with
                                    | Some n => n
                                    | None => default_max_tokens
                                    end;
                 temperature := VFloat match temperature_arg with
                                       | Some t => t
                                       | None => default_temperature
                                       end |}
  | _ :: _ => inl {| title := "AgentQuery"; errors := errs |}
  end.

(** class AgentResponse(BaseModel): answer: str (required);
    raw_response: Optional[dict] = None *)
Record AgentResponse := {
  answer : string;
  raw_response : option PyDict
}.

Definition AgentResponse_new (answer_arg : option string)
    (raw_response_arg : option PyDict) : ValidationError + AgentResponse :=
  match answer_arg with
  | Some a => inr {| answer := a; raw_response := raw_response_arg |}
  | None => inl {| title := "AgentResponse"; errors := required "answer" answer_arg |}
  end.

(** ** The service *)

Module Anthropic.

(** anthropic.Anthropic(api_key=...): a handle holding the credential. *)
Record Client := Anthropic { api_key : string }.

(** One segment of a reply: a text block, or a block of another class,
    which has no attribute [text]. *)
Inductive ContentBlock :=
| TextBlock (text : string)
| OtherBlock (cls : string).

(** The reply of [messages.create]: its content segments and what its
    [model_dump()] returns. *)
Record Message := {
  content : list ContentBlock;
  model_dump : PyDict
}.

(** The keyword arguments of one [messages.create] call. *)
Record MessageCreateParams := {
  model : PyVal;
  max_tokens : PyVal;
  temperature : PyVal;
  messages : list PyVal
}.

(** A remote call: the client it goes through and its arguments. *)
Definition Call : Type := Client * MessageCreateParams.

End Anthropic.

(** ** The world and the monad of effects *)

(** What the program can observe and change outside its own objects: the
    process environment, and the remote calls issued so far, oldest first. *)
Record World := {
  environ : string -> option string;
  calls : list Anthropic.Call
}.

Definition record_call (c : Anthropic.Call) (w : World) : World :=
  {| environ := environ w; calls := (calls w ++ [c])%list |}.

(** A computation over a state [S] that returns a value or raises; the
    state reached is kept in both cases. *)
Definition Py (S A : Type) : Type := S -> (PyException + A) * S.

Definition ret {S A : Type} (a : A) : Py S A := fun s => (inr a, s).

Definition raise {S A : Type} (e : PyException) : Py S A := fun s => (inl e, s).

Definition bind {S A B : Type} (c : Py S A) (k : A -> Py S B) : Py S B :=
  fun s => match c s with
           | (inr a, s') => k a s'
           | (inl e, s') => (inl e, s')
           end.

(** try: body / except Exception as e: handler e *)
Definition try_except {S A : Type} (body : Py S A) (handler : PyException -> Py S A)
  : Py S A :=
  fun s => match body s with
           | (inr a, s') => (inr a, s')
           | (inl e, s') => handler e s'
           end.

(** A pure step that may raise. *)
Definition lift {S A : Type} (r : PyException + A) : Py S A :=
  match r with
  | inr a => ret a
  | inl e => raise e
  end.

(** A pydantic constructor call: its [ValidationError] is raised. *)
Definition construct {S A : Type} (r : ValidationError + A) : Py S A :=
  match r with
  | inr a => ret a
  | inl e => raise (PydanticValidationError e)
  end.

Declare Scope py_scope.
Delimit Scope py_scope with py.
Notation "x <- c ;; k" := (bind c (fun x => k))
  (at level 61, c at next level, right associativity) : py_scope.

(** ** Truthiness *)

(** [bool(s)] for an [Optional[str]]: [None] and the empty string are false. *)
Definition truthy_str (s : option string) : bool :=
  match s with
  | None | Some EmptyString => false
  | Some (String _ _) => true
  end.

(** [a or b] *)
Definition py_or (a b : option string) : option string :=
  if truthy_str a then a else b.

(** [bool(d)] for an [Optional[dict]]: [None] and the empty dict are false. *)
Definition truthy_dict (d : option PyDict) : bool :=
  match d with
  | None | Some [] => false
  | Some (_ :: _) => true
  end.

(** [d.items()], for the dict behind a truthy [Optional[dict]]. *)
Definition items (d : option PyDict) : list (string * PyVal) :=
  match d with
  | Some l => l
  | None => []
  end.

(** ** Attributes of an [AgentQuery] instance *)

(** The double-quote character, for messages that quote a name. *)
Definition dquote : string := String (ascii_of_nat 34) EmptyString.

(** The declared fields of [AgentQuery]. *)
Definition is_field (key : string) : bool :=
  existsb (String.eqb key) ["messages"; "model"; "max_tokens"; "temperature"].

Section Agent.

(** The names, other than its fields, under which a pydantic model
    instance has an attribute (the methods and properties of [BaseModel]):
    they are pydantic's, not this program's. *)
Variable inherited_attr : string -> bool.

(** What [BaseModel.__setattr__] does with a name that is no field: it is
    pydantic's, not this program's.  It refuses most names (a [ValueError]
    for a method name such as [copy], an [AttributeError] for a read-only
    property), and it accepts others (names that start with an underscore
    go to [object.__setattr__]), some of which change what the fields hold
    ([__dict__]).  The result is the exception raised, or the fields of the
    object after the assignment. *)
Variable setattr_other : AgentQuery -> string -> PyVal -> PyException + AgentQuery.

(** [str(e)] of a pydantic [ValidationError]: pydantic's rendering. *)
Variable validation_error_str : ValidationError -> string.

(** The remote service behind [client.messages.create]: from the calls
    issued before and the present call, a reply or a raised exception. *)
Variable service : list Anthropic.Call -> Anthropic.Call -> PyException + Anthropic.Message.

(** [str(e)] *)
Definition py_str (e : PyException) : string :=
  match e with
  | PydanticValidationError ve => validation_error_str ve
  | Exception_ _ msg => msg
  end.

(** [hasattr(query, key)] *)
Definition hasattr (query : AgentQuery) (key : string) : bool :=
  is_field key || inherited_attr key.

(** [setattr(query, key, value)]: a field takes the value as it is (the
    model does not set [validate_assignment]); any other name is handled
    by [BaseModel.__setattr__] as pydantic has it. *)
Definition setattr (query : AgentQuery) (key : string) (value : PyVal)
  : PyException + AgentQuery :=
  if String.eqb key "messages" then
    inr {| messages := value; model := model query;
           max_tokens := max_tokens query; temperature := temperature query |}
  else if String.eqb key "model" then
    inr {| messages := messages query; model := value;
           max_tokens := max_tokens query; temperature := temperature query |}
  else if String.eqb key "max_tokens" then
    inr {| messages := messages query; model := model query;
           max_tokens := value; temperature := temperature query |}
  else if String.eqb key "temperature" then
    inr {| messages := messages query; model := model query;
           max_tokens := max_tokens query; temperature := value |}
  else setattr_other query key value.

(** for key, value in query_params.items():
        if hasattr(query, key): setattr(query, key, value) *)
Fixpoint apply_query_params (query : AgentQuery) (kvs : list (string * PyVal))
  : PyException + AgentQuery :=
  match kvs with
  | [] => inr query
  | (key, value) :: rest =>
      if hasattr query key then
        match setattr query key value with
        | inr query' => apply_query_params query' rest
        | inl e => inl e
        end
      else apply_query_params query rest
  end.

(** ** The message list on the wire *)

(** What [for m in v] ranges over. *)
Definition iterate (v : PyVal) : PyException + list PyVal :=
  match v with
  | VList l | VTuple l => inr l
  | VStr s => inr (chars s)
  | VDict d => inr (map (fun kv => VStr (fst kv)) d)
  | VMessage m => inr [VTuple [VStr "role"; VStr (role m)];
                       VTuple [VStr "content"; VStr (content m)]]
  | VNone | VBool _ | VInt _ | VFloat _ =>
      inl (TypeError ("'" ++ type_name v ++ "' object is not iterable"))
  end.

(** {"role": m.role, "content": m.content} *)
Definition wire_message (m : PyVal) : PyException + PyVal :=
  match m with
  | VMessage a => inr (VDict [("role", VStr (role a)); ("content", VStr (content a))])
  | _ => inl (AttributeError ("'" ++ type_name m ++ "' object has no attribute 'role'"))
  end.

Fixpoint wire_each (ms : list PyVal) : PyException + list PyVal :=
  match ms with
  | [] => inr []
  | m :: rest =>
      match wire_message m with
      | inl e => inl e
      | inr d => match wire_each rest with
                 | inl e => inl e
                 | inr ds => inr (d :: ds)
                 end
      end
  end.

(** [{"role": m.role, "content": m.content} for m in v] *)
Definition wire_messages (v : PyVal) : PyException + list PyVal :=
  match iterate v with
  | inl e => inl e
  | inr ms => wire_each ms
  end.

(** response.content[0].text *)
Definition first_text (blocks : list Anthropic.ContentBlock) : PyException + string :=
  match blocks with
  | [] => inl (IndexError "list index out of range")
  | Anthropic.TextBlock t :: _ => inr t
  | Anthropic.OtherBlock cls :: _ =>
      inl (AttributeError ("'" ++ cls ++ "' object has no attribute 'text'"))
  end.

(** ** class ClaudeAgent *)

Record ClaudeAgent := {
  api_key : string;
  client : Anthropic.Client
}.

(** os.environ.get(name) *)
Definition os_environ_get (name : string) : Py World (option string) :=
  fun w => (inr (environ w name), w).

(** ClaudeAgent(api_key): [__init__]. *)
Definition ClaudeAgent_init (api_key_arg : option string) : Py World ClaudeAgent :=
  (key <- (if truthy_str api_key_arg then ret api_key_arg
           else os_environ_get "ANTHROPIC_API_KEY") ;;
   match key with
   | Some (String c k) =>
       ret {| api_key := String c k; client := Anthropic.Anthropic (String c k) |}
   | Some EmptyString | None =>
       raise (ValueError "ANTHROPIC_API_KEY must be provided either as an argument or as an environment variable")
   end)%py.

(** The state [ask] runs in: the agent object it is called on, and the
    world. *)
Definition AskState : Type := ClaudeAgent * World.

(** self.client *)
Definition self_client : Py AskState Anthropic.Client :=
  fun st => (inr (client (fst st)), st).

(** self.client.messages.create, given its keyword arguments: the call is
    recorded and the service answers it. *)
Definition messages_create (c : Anthropic.Client) (params : Anthropic.MessageCreateParams)
  : Py AskState Anthropic.Message :=
  fun st => (service (calls (snd st)) (c, params),
             (fst st, record_call (c, params) (snd st))).

(** ClaudeAgent.ask(self, question, query_params) *)
Definition ask (question : string) (query_params : option PyDict)
  : Py AskState AgentResponse :=
  (m <- construct (AgentMessage_new (Some "user") (Some question)) ;;
   query <- construct (AgentQuery_new (Some [m]) None None None) ;;
   query <- (if truthy_dict query_params
             then lift (apply_query_params query (items query_params))
             else ret query) ;;
   try_except
     (c <- self_client ;;
      wire <- lift (wire_messages (messages query)) ;;
      response <- messages_create c
                    {| Anthropic.model := model query;
                       Anthropic.max_tokens := max_tokens query;
                       Anthropic.temperature := temperature query;
                       Anthropic.messages := wire |} ;;
      answer <- lift (first_text (Anthropic.content response)) ;;
      construct (AgentResponse_new (Some answer)
                   (Some (Anthropic.model_dump response))))
     (fun e =>
        construct (AgentResponse_new (Some ("Error: " ++ py_str e))
                     (Some [("error", VStr (py_str e))]))))%py.

(** ** The entry point *)

(** The state [main] runs in: the world, and the texts printed so far,
    one per [print] call. *)
Definition MainState : Type := World * list string.

(** print(text) *)
Definition print (text : string) : Py MainState unit :=
  fun st => (inr tt, (fst st, (snd st ++ [text])%list)).

(** A computation on the world alone, run from [main]. *)
Definition in_world {A : Type} (c : Py World A) : Py MainState A :=
  fun st => match c (fst st) with
            | (r, w) => (r, (w, snd st))
            end.

(** agent.method(...): the method runs on the agent object and the world. *)
Definition on_agent {A : Type} (agent : ClaudeAgent) (c : Py AskState A)
  : Py MainState A :=
  fun st => match c (agent, fst st) with
            | (r, (_, w)) => (r, (w, snd st))
            end.

(** [s * n] *)
Fixpoint repeat_string (s : string) (n : nat) : string :=
  match n with
  | O => EmptyString
  | S k => s ++ repeat_string s k
  end.

Definition newline : string := String (ascii_of_nat 10) EmptyString.

(** main().  [load_dotenv()] has run at import: [environ] is the
    environment it leaves. *)
Definition main : Py MainState unit :=
  (try_except
     (agent <- in_world (ClaudeAgent_init None) ;;
      let question := "What is the capital of Italy?" in
      _ <- print ("Asking Claude: " ++ question) ;;
      response <- on_agent agent (ask question None) ;;
      _ <- print (newline ++ "Claude's response:") ;;
      _ <- print (repeat_string "-" 50) ;;
      _ <- print (answer response) ;;
      _ <- print (repeat_string "-" 50) ;;
      ret tt)
     (fun e => print ("An error occurred: " ++ py_str e)))%py.

End Agent.

(** ** Notions the properties are stated with *)

(** The query [ask] builds before it applies [query_params]. *)
Definition default_query (question : string) : AgentQuery :=
  {| messages := VList [VMessage {| role := "user"; content := question |}];
     model := VStr default_model;
     max_tokens := VInt default_max_tokens;
     temperature := VFloat default_temperature |}.

(** [getattr(query, key)] for the declared fields; no value for other names. *)
Definition getattr (query : AgentQuery) (key : string) : option PyVal :=
  if String.eqb key "messages" then Some (messages query)
  else if String.eqb key "model" then Some (model query)
  else if String.eqb key "max_tokens" then Some (max_tokens query)
  else if String.eqb key "temperature" then Some (temperature query)
  else None.

(** [d.get(key)]: the value bound to a key, the last one where a list binds
    it more than once. *)
Fixpoint dict_get (key : string) (d : PyDict) : option PyVal :=
  match d with
  | [] => None
  | (k, v) :: rest =>
      match dict_get key rest with
      | Some v' => Some v'
      | None => if String.eqb k key then Some v else None
      end
  end.

(** The keyword arguments [ask] passes to [messages.create] for a query
    whose message list converted to [wire]. *)
Definition create_params (query : AgentQuery) (wire : list PyVal)
  : Anthropic.MessageCreateParams :=
  {| Anthropic.model := model query;
     Anthropic.max_tokens := max_tokens query;
     Anthropic.temperature := temperature query;
     Anthropic.messages := wire |}.

(** The response of the [except] branch of [ask], for the text of the
    exception. *)
Definition error_response (msg : string) : AgentResponse :=
  {| answer := "Error: " ++ msg; raw_response := Some [("error", VStr msg)] |}.

(** The state after [ask] issued its one call. *)
Definition after_call (c : Anthropic.Call) (st : ClaudeAgent * World)
  : ClaudeAgent * World :=
  (fst st, record_call c (snd st)).

(** {"role": m.role, "content": m.content} of a message. *)
Definition wire_of (m : AgentMessage) : PyVal :=
  VDict [("role", VStr (role m)); ("content", VStr (content m))].

(** A value that is a message object. *)
Definition is_message (v : PyVal) : bool :=
  match v with
  | VMessage _ => true
  | _ => false
  end.

(** The one call [main] leads to, for the credential of the environment. *)
Definition main_call (key : string) : Anthropic.Call :=
  (Anthropic.Anthropic key,
   create_params (default_query "What is the capital of Italy?")
     [wire_of {| role := "user"; content := "What is the capital of Italy?" |}]).

(** What [main] prints around an answer. *)
Definition main_output (answer_text : string) : list string :=
  ["Asking Claude: What is the capital of Italy?";
   newline ++ "Claude's response:";
   repeat_string "-" 50;
   answer_text;
   repeat_string "-" 50].

(** ** Sample parameters, for the concrete runs *)

(** A service that answers every call with the text "Rome". *)
Definition service_rome (_ : list Anthropic.Call) (_ : Anthropic.Call)
  : PyException + Anthropic.Message :=
  inr {| Anthropic.content := [Anthropic.TextBlock "Rome"];
         Anthropic.model_dump := [("role", VStr "assistant")] |}.

(** A service that is unreachable. *)
Definition service_down (_ : list Anthropic.Call) (_ : Anthropic.Call)
  : PyException + Anthropic.Message :=
  inl (Exception_ "APIConnectionError" "Connection error.").

(** A service whose replies carry no content segment. *)
Definition service_empty (_ : list Anthropic.Call) (_ : Anthropic.Call)
  : PyException + Anthropic.Message :=
  inr {| Anthropic.content := []; Anthropic.model_dump := [("role", VStr "assistant")] |}.

(** Pydantic's model instances have a method [copy], among others. *)
Definition sample_inherited_attr (key : string) : bool := String.eqb key "copy".

(** Pydantic refuses to assign [copy], the one name above that is no field. *)
Definition sample_setattr_other (query : AgentQuery) (key : string) (value : PyVal)
  : PyException + AgentQuery :=
  inl (ValueError (dquote ++ "AgentQuery" ++ dquote ++ " object has no field "
                     ++ dquote ++ key ++ dquote)).

Definition sample_validation_error_str (e : ValidationError) : string :=
  "validation error for " ++ title e.

Definition sample_agent : ClaudeAgent :=
  {| api_key := "sk-test"; client := Anthropic.Anthropic "sk-test" |}.

Definition empty_world : World := {| environ := fun _ => None; calls := [] |}.

(** A world whose environment holds the credential [key]. *)
Definition world_with_key (key : string) : World :=
  {| environ := fun name => if String.eqb name "ANTHROPIC_API_KEY" then Some key else None;
     calls := [] |}.

(** * Properties *)

(** ** Floats against the unit interval *)

Lemma digits2_pos_bounds (m : positive) :
  2 ^ (Zpos (digits2_pos m) - 1) <= Zpos m < 2 ^ Zpos (digits2_pos m).
Proof.
  induction m as [m IH | m IH |]; cbn [digits2_pos].
  - rewrite Pos2Z.inj_succ, Z.pow_succ_r by lia.
    replace (Z.succ (Zpos (digits2_pos m)) - 1) with (Z.succ (Zpos (digits2_pos m) - 1)) by lia.
    rewrite Z.pow_succ_r by lia. lia.
  - rewrite Pos2Z.inj_succ, Z.pow_succ_r by lia.
    replace (Z.succ (Zpos (digits2_pos m)) - 1) with (Z.succ (Zpos (digits2_pos m) - 1)) by lia.
    rewrite Z.pow_succ_r by lia. lia.
  - cbn. lia.
Qed.

Lemma bounded_digits (m : positive) (e : Z) :
  bounded 53 1024 m e = true ->
  Zpos (digits2_pos m) <= 53 /\ (-1074 < e -> Zpos (digits2_pos m) = 53) /\ -1074 <= e.
Proof.
  unfold bounded, canonical_mantissa, fexp, emin. intros H.
  apply andb_true_iff in H. destruct H as [H _].
  apply Z.eqb_eq in H. lia.
Qed.

Lemma finite_le_1 (m : positive) (e : Z) :
  bounded 53 1024 m e = true ->
  SFleb (S754_finite false m e) float_1 = true <->
  match SF2Q (S754_finite false m e) with
  | Some q => (q <= 1)%Q
  | None => False
  end.
Proof.
  intros Hb. destruct (bounded_digits m e Hb) as (Hd & Hn & Hmin).
  pose proof (digits2_pos_bounds m) as [Hlo Hhi].
  assert (H53 : 2 ^ Zpos (digits2_pos m) <= 2 ^ 53).
  { apply Z.pow_le_mono_r; [reflexivity | exact Hd]. }
  unfold SFleb, SFcompare, float_1, SF2Q, cond_Zopp, Qle.
  destruct (Z.compare_spec e (-52)) as [He | He | He].
  - subst e. rewrite Pos.compare_cont_spec. cbn [Pos.switch_Eq Qnum Qden inject_Z].
    change (Zpos (2 ^ 52)) with 4503599627370496.
    rewrite Z.mul_1_r, Z.mul_1_l.
    destruct (Pos.compare_spec m 4503599627370496) as [Hm | Hm | Hm].
    + subst m. split; [intros _; apply Z.le_refl | reflexivity].
    + split; [intros _; apply Z.lt_le_incl; exact Hm | reflexivity].
    + split; [discriminate | intros H; exfalso].
      clear - Hm H. lia.
  -destruct e as [| p | p]; try discriminate He.
    cbn [Qnum Qden inject_Z]. rewrite Pos2Z.inj_pow, Z.mul_1_r, Z.mul_1_l.
    assert (H2 : 2 ^ 53 <= 2 ^ Zpos p).
    { apply Z.pow_le_mono_r; [reflexivity |]. clear - He. lia. }
    split; intros _; [| reflexivity].
    apply Z.lt_le_incl. eapply Z.lt_le_trans; [exact Hhi |].
    eapply Z.le_trans; [exact H53 | exact H2].
  -rewrite (Hn ltac:(clear - He; lia)) in Hlo.
    change (2 ^ (53 - 1)) with 4503599627370496 in Hlo.
    split; intros H; [discriminate | exfalso].
    destruct e as [| p | p]; cbn [Qnum Qden inject_Z] in H;
      rewrite Z.mul_1_r, Z.mul_1_l in H.
    + clear - Hlo H. lia.
    + rewrite Z.pow_pos_fold in H.
      assert (H1 : 1 <= 2 ^ Zpos p).
      { apply (Z.pow_le_mono_r 2 0); [reflexivity | discriminate]. }
      assert (H2 : Zpos m * 1 <= Zpos m * 2 ^ Zpos p).
      { apply Z.mul_le_mono_nonneg_l; [discriminate | exact H1]. }
      clear - Hlo H H2. generalize dependent (2 ^ Zpos p). intros. lia.
    +rewrite Pos2Z.inj_pow in H.
      assert (H2 : 2 ^ Zpos p < 2 ^ 52).
      { apply Z.pow_lt_mono_r; [reflexivity | discriminate |]. clear - He. lia. }
      change (2 ^ 52) with 4503599627370496 in H2.
      clear - Hlo H H2. generalize dependent (2 ^ Zpos p). intros. lia.
Qed.

Lemma nonneg_finite (m : positive) (e : Z) (q : Q) :
  SF2Q (S754_finite false m e) = Some q -> (0 <= q)%Q.
Proof.
  cbn [SF2Q cond_Zopp]. intros [= <-]. unfold Qle.
  destruct e as [| p | p]; cbn [Qnum Qden inject_Z]; rewrite Z.mul_0_l, Z.mul_1_r.
  - discriminate.
  - rewrite Z.pow_pos_fold.
    apply (Z.mul_nonneg_nonneg (Zpos m) (2 ^ Zpos p)); [discriminate |].
    apply Z.pow_nonneg. discriminate.
  - discriminate.
Qed.

Lemma neg_finite (m : positive) (e : Z) (q : Q) :
  SF2Q (S754_finite true m e) = Some q -> ~ (0 <= q)%Q.
Proof.
  cbn [SF2Q cond_Zopp]. intros [= <-]. unfold Qle.
  destruct e as [| p | p]; cbn [Qnum Qden inject_Z Z.opp]; rewrite Z.mul_0_l, Z.mul_1_r.
  - intros H. apply H. reflexivity.
  - rewrite Z.pow_pos_fold. intros H.
    assert (H1 : 0 < 2 ^ Zpos p) by (apply Z.pow_pos_nonneg; [reflexivity | discriminate]).
    assert (H2 : Zneg m * 2 ^ Zpos p < 0).
    { apply Z.mul_neg_pos; [reflexivity | exact H1]. }
    apply (Z.lt_irrefl 0). eapply Z.le_lt_trans; [exact H | exact H2].
  - intros H. apply H. reflexivity.
Qed.

Lemma check_temperature_spec (t : spec_float) :
  is_float t = true -> (check_temperature t = [] <-> in_unit_interval t).
Proof.
  unfold is_float, check_temperature, in_unit_interval.
  destruct t as [s | s | | s m e]; cbn [valid_binary]; intros Hv.
  - cbn. split; [intros _; split; discriminate | reflexivity].
  - destruct s; cbn; split; intros H; try discriminate; contradiction.
  - cbn. split; intros H; [discriminate | contradiction].
  - destruct s.
    + change (SFleb (S754_finite true m e) float_1) with true.
      change (SFleb float_0 (S754_finite true m e)) with false. cbn [negb].
      split; intros H; [discriminate |].
      destruct (SF2Q (S754_finite true m e)) as [q |] eqn:Eq; [| contradiction].
      destruct H as [H _]. exfalso. exact (neg_finite m e q Eq H).
    + pose proof (finite_le_1 m e Hv) as Hle.
      change (SFleb float_0 (S754_finite false m e)) with true.
      destruct (SF2Q (S754_finite false m e)) as [q |] eqn:Eq.
      * pose proof (nonneg_finite m e q Eq) as H0.
        destruct (SFleb (S754_finite false m e) float_1); cbn [negb].
        -- split; [intros _ | reflexivity]. split; [exact H0 | now apply Hle].
        -- split; intros H; [discriminate |].
           destruct H as [_ H]. apply Hle in H. discriminate.
      * discriminate Eq.
Qed.

(** ** The schema records *)

(** A float outside the interval is refused with one error on
    [temperature]. *)
Lemma check_temperature_refuses (t : spec_float) :
  check_temperature t <> [] ->
  exists kind, check_temperature t = [("temperature", kind)].
Proof.
  unfold check_temperature.
  destruct (negb (SFleb t float_1)); [eexists; reflexivity |].
  destruct (negb (SFleb float_0 t)); [eexists; reflexivity |].
  intros H. now contradiction H.
Qed.

(** C2: for every float [t], constructing an [AgentQuery] with
    [temperature=t] succeeds and stores [t] when [t] lies in the closed
    interval from 0 to 1, and fails with a [ValidationError] on
    [temperature] when it does not (NaN and the infinities included). *)
Theorem AgentQuery_temperature_range
    (ms : option (list AgentMessage)) (mdl : option string) (n : option Z)
    (t : spec_float) :
  is_float t = true ->
  (in_unit_interval t ->
   exists q, AgentQuery_new ms mdl n (Some t) = inr q /\ temperature q = VFloat t) /\
  (~ in_unit_interval t ->
   exists kind, AgentQuery_new ms mdl n (Some t)
                = inl {| title := "AgentQuery"; errors := [("temperature", kind)] |}).
Proof.
  intros Hf. pose proof (check_temperature_spec t Hf) as Hspec.
  unfold AgentQuery_new. split; intros H.
  - apply Hspec in H. rewrite H. eexists. split; reflexivity.
  - assert (Hne : check_temperature t <> []) by (intros E; apply H, Hspec, E).
    destruct (check_temperature_refuses t Hne) as [kind Hk].
    exists kind. rewrite Hk. reflexivity.
Qed.

Lemma in_unit_interval_0_5 : in_unit_interval float_0_5.
Proof. unfold in_unit_interval. cbn. split; discriminate. Qed.

Lemma not_in_unit_interval_2 : ~ in_unit_interval float_2.
Proof. unfold in_unit_interval. cbn. intros [_ H]. apply H. reflexivity. Qed.

Lemma AgentQuery_temperature_range_witness :
  (exists q, AgentQuery_new None None None (Some float_0_5) = inr q
             /\ temperature q = VFloat float_0_5) /\
  (exists kind, AgentQuery_new None None None (Some float_2)
                = inl {| title := "AgentQuery"; errors := [("temperature", kind)] |}).
Proof.
  split.
  - apply (AgentQuery_temperature_range None None None float_0_5); [reflexivity |].
    exact in_unit_interval_0_5.
  - apply (AgentQuery_temperature_range None None None float_2); [reflexivity |].
    exact not_in_unit_interval_2.
Defined.

(** The claim as the specification words it, for C4: construction fails for
    every [max_tokens] that is not positive.  The code accepts zero. *)
Lemma AgentQuery_max_tokens_zero_accepted :
  ~ (forall n : Z, n <= 0 ->
       exists ve, AgentQuery_new None None (Some n) None = inl ve).
Proof.
  intros H. destruct (H 0 ltac:(discriminate)) as [ve Hve]. discriminate Hve.
Qed.

(** C4, as the code has it: [max_tokens] is declared [int] with no bound, so
    for every integer, zero and the negative ones included, construction
    with the other fields valid succeeds and stores the integer unchanged. *)
Theorem AgentQuery_max_tokens_unbounded
    (ms : option (list AgentMessage)) (mdl : option string) (n : Z)
    (t : option spec_float) :
  match t with Some x => check_temperature x = [] | None => True end ->
  exists q, AgentQuery_new ms mdl (Some n) t = inr q /\ max_tokens q = VInt n.
Proof.
  intros Ht. unfold AgentQuery_new.
  destruct t as [x |]; [rewrite Ht |]; eexists; split; reflexivity.
Qed.

Lemma AgentQuery_max_tokens_unbounded_witness :
  exists q, AgentQuery_new None None (Some (-5)) (Some float_0_2) = inr q
            /\ max_tokens q = VInt (-5).
Proof.
  apply (AgentQuery_max_tokens_unbounded None None (-5) (Some float_0_2)).
  reflexivity.
Defined.

(** The claim as the specification words it, for C5: construction fails for
    every role outside the two recognised ones.  The code accepts "system". *)
Lemma AgentMessage_role_not_enumerated :
  ~ (forall r c : string, r <> "user" -> r <> "assistant" ->
       exists ve, AgentMessage_new (Some r) (Some c) = inl ve).
Proof.
  intros H.
  destruct (H "system" "x" ltac:(discriminate) ltac:(discriminate)) as [ve Hve].
  discriminate Hve.
Qed.

(** C5, as the code has it: constructing an [AgentMessage] fails with a
    [ValidationError] when [role] or [content] is absent; for every role
    string, recognised or not, and every content string, the empty one
    included, it succeeds and the stored fields are the inputs unchanged. *)
Theorem AgentMessage_construction :
  (forall c, exists errs,
      AgentMessage_new None c = inl {| title := "AgentMessage"; errors := errs |}
      /\ In ("role", missing) errs) /\
  (forall r, exists errs,
      AgentMessage_new r None = inl {| title := "AgentMessage"; errors := errs |}
      /\ In ("content", missing) errs) /\
  (forall r c, exists m,
      AgentMessage_new (Some r) (Some c) = inr m /\ role m = r /\ content m = c).
Proof.
  split; [| split].
  - intros c. eexists. split; [reflexivity |]. left. reflexivity.
  - intros r. destruct r as [r |]; eexists; (split; [reflexivity |]);
      cbn; auto.
  - intros r c. eexists. repeat split.
Qed.

(** ** The override loop *)

Section OverrideLoop.

Variable inherited_attr : string -> bool.
Variable setattr_other : AgentQuery -> string -> PyVal -> PyException + AgentQuery.


Lemma is_field_cases (key : string) :
  is_field key = true ->
  key = "messages" \/ key = "model" \/ key = "max_tokens" \/ key = "temperature".
Proof.
  unfold is_field. cbn [existsb]. rewrite !orb_true_iff, !String.eqb_eq.
  intros [H | [H | [H | [H | H]]]]; auto. discriminate H.
Qed.

Lemma getattr_is_field (query : AgentQuery) (key : string) :
  is_field key = true <-> exists v, getattr query key = Some v.
Proof.
  unfold getattr, is_field. cbn [existsb].
  destruct (String.eqb key "messages"); [split; eauto |].
  destruct (String.eqb key "model"); [split; eauto |].
  destruct (String.eqb key "max_tokens"); [split; eauto |].
  destruct (String.eqb key "temperature"); [split; eauto |].
  cbn. split; [discriminate | intros [v Hv]; discriminate Hv].
Qed.

(** Assigning a field changes that field and no other. *)
Lemma getattr_setattr (query : AgentQuery) (key : string) (value : PyVal) :
  is_field key = true ->
  exists query', setattr setattr_other query key value = inr query' /\
    forall f, getattr query' f = if String.eqb key f then Some value else getattr query f.
Proof.
  intros Hk. apply is_field_cases in Hk.
  destruct Hk as [-> | [-> | [-> | ->]]]; eexists; (split; [reflexivity |]);
    intros f; unfold getattr; cbn [messages model max_tokens temperature];
    rewrite ?(String.eqb_sym f).
  - destruct (String.eqb "messages" f); reflexivity.
  - destruct (String.eqb "messages" f) eqn:E1; [apply String.eqb_eq in E1; subst f; reflexivity |].
    destruct (String.eqb "model" f); reflexivity.
  - destruct (String.eqb "messages" f) eqn:E1; [apply String.eqb_eq in E1; subst f; reflexivity |].
    destruct (String.eqb "model" f) eqn:E2; [apply String.eqb_eq in E2; subst f; reflexivity |].
    destruct (String.eqb "max_tokens" f); reflexivity.
  - destruct (String.eqb "messages" f) eqn:E1; [apply String.eqb_eq in E1; subst f; reflexivity |].
    destruct (String.eqb "model" f) eqn:E2; [apply String.eqb_eq in E2; subst f; reflexivity |].
    destruct (String.eqb "max_tokens" f) eqn:E3; [apply String.eqb_eq in E3; subst f; reflexivity |].
    destruct (String.eqb "temperature" f); reflexivity.
Qed.

(** Assigning a name that is no field is left to pydantic. *)
Lemma setattr_not_field (query : AgentQuery) (key : string) (value : PyVal) :
  is_field key = false ->
  setattr setattr_other query key value = setattr_other query key value.
Proof.
  unfold is_field, setattr. cbn [existsb]. rewrite !orb_false_iff.
  intros (-> & -> & -> & -> & _). reflexivity.
Qed.

(** When every key is a field or names no attribute and the loop completes,
    each field holds the value the mapping binds to its name, or its value
    from before the loop. *)
Lemma apply_query_params_getattr (kvs : PyDict) :
  (forall key, In key (map fst kvs) ->
               is_field key = true \/ inherited_attr key = false) ->
  forall query query',
    apply_query_params inherited_attr setattr_other query kvs = inr query' ->
    forall f, is_field f = true ->
      getattr query' f = match dict_get f kvs with
                         | Some v => Some v
                         | None => getattr query f
                         end.
Proof.
  induction kvs as [| [key value] rest IH]; intros Hkeys query query' Hrun f Hf.
  - cbn in Hrun. injection Hrun as <-. reflexivity.
  - assert (Hrest : forall k, In k (map fst rest) ->
              is_field k = true \/ inherited_attr k = false)
      by (intros k Hk; apply Hkeys; right; exact Hk).
    cbn [apply_query_params dict_get] in *.
    unfold hasattr in Hrun.
    destruct (is_field key) eqn:Hkey; cbn [orb] in Hrun.
    + destruct (getattr_setattr query key value Hkey) as (q1 & Hset & Hget).
      rewrite Hset in Hrun. rewrite (IH Hrest q1 query' Hrun f Hf).
      destruct (dict_get f rest); [reflexivity |]. rewrite Hget.
      destruct (String.eqb key f); reflexivity.
    + assert (Hne : String.eqb key f = false).
      { destruct (String.eqb key f) eqn:E; [| reflexivity].
        apply String.eqb_eq in E. subst f. congruence. }
      rewrite Hne.
      destruct (Hkeys key (or_introl eq_refl)) as [H | H]; [congruence |].
      rewrite H in Hrun.
      rewrite (IH Hrest query query' Hrun f Hf).
      destruct (dict_get f rest); reflexivity.
Qed.

(** The loop completes when every key is a field or names no attribute. *)
Lemma apply_query_params_completes (kvs : PyDict) :
  (forall key, In key (map fst kvs) ->
               is_field key = true \/ inherited_attr key = false) ->
  forall query, exists query', apply_query_params inherited_attr setattr_other query kvs = inr query'.
Proof.
  induction kvs as [| [key value] rest IH]; intros Hkeys query.
  - eexists. reflexivity.
  - cbn [apply_query_params].
    assert (Hrest : forall k, In k (map fst rest) ->
              is_field k = true \/ inherited_attr k = false)
      by (intros k Hk; apply Hkeys; right; exact Hk).
    unfold hasattr.
    destruct (is_field key) eqn:Hkey; cbn [orb].
    + destruct (getattr_setattr query key value Hkey) as (q1 & Hset & _).
      rewrite Hset. apply (IH Hrest).
    + destruct (Hkeys key (or_introl eq_refl)) as [H | H]; [congruence |].
      rewrite H. apply (IH Hrest).
Qed.

(** A key that has a value is one of the keys. *)
Lemma dict_get_Some_key (d : PyDict) (key : string) :
  forall v, dict_get key d = Some v -> In key (map fst d).
Proof.
  induction d as [| [k w] rest IH]; intros v E; [discriminate E |].
  cbn [dict_get] in E. cbn [map fst].
  destruct (dict_get key rest) as [v' |]; [right; apply (IH v'); reflexivity |].
  destruct (String.eqb k key) eqn:Ek; [| discriminate E].
  left. apply String.eqb_eq, Ek.
Qed.

(** In a well-formed dict the value bound to a key is the one it lists. *)
Lemma dict_get_In (d : PyDict) (key : string) (v : PyVal) :
  well_formed_dict d -> In (key, v) d -> dict_get key d = Some v.
Proof.
  unfold well_formed_dict.
  induction d as [| [k w] rest IH]; intros Hnd Hin; [contradiction |].
  cbn [map fst] in Hnd. inversion Hnd as [| ? ? Hk Hrest]; subst.
  cbn [dict_get]. destruct Hin as [Heq | Hin].
  - injection Heq as -> ->.
    destruct (dict_get key rest) as [v' |] eqn:E.
    + exfalso. apply Hk. apply (dict_get_Some_key rest key v' E).
    + rewrite String.eqb_refl. reflexivity.
  - rewrite (IH Hrest Hin). reflexivity.
Qed.

(** Keys that name no attribute are skipped: the loop runs as on the
    mapping without them. *)
Lemma apply_query_params_skips (kvs : PyDict) :
  forall query,
    apply_query_params inherited_attr setattr_other query kvs
    = apply_query_params inherited_attr setattr_other query (filter (fun kv => hasattr inherited_attr query (fst kv)) kvs).
Proof.
  induction kvs as [| [key value] rest IH]; intros query; [reflexivity |].
  cbn [apply_query_params filter fst].
  unfold hasattr in *.
  destruct (is_field key || inherited_attr key) eqn:Hk.
  - cbn [apply_query_params]. unfold hasattr. rewrite Hk.
    destruct (setattr setattr_other query key value) as [e | q1]; [reflexivity |].
    apply (IH q1).
  - apply IH.
Qed.

(** A list of message objects converts element by element, in order. *)
Lemma wire_each_messages (ms : list AgentMessage) :
  wire_each (map VMessage ms) = inr (map wire_of ms).
Proof.
  induction ms as [| m rest IH]; [reflexivity |].
  cbn [map wire_each wire_message]. rewrite IH. reflexivity.
Qed.

End OverrideLoop.

(** ** Running [ask] *)

Section AskProperties.

Variable inherited_attr : string -> bool.
Variable setattr_other : AgentQuery -> string -> PyVal -> PyException + AgentQuery.
Variable validation_error_str : ValidationError -> string.
Variable service : list Anthropic.Call -> Anthropic.Call -> PyException + Anthropic.Message.


(** The run of [ask], path by path: the override loop may raise; inside
    [try], converting the messages may raise before the call, the call
    may raise, reading the first text may raise; each of those three
    becomes an error response. *)
Lemma ask_run (question : string) (query_params : option PyDict) (st : AskState) :
  ask inherited_attr setattr_other validation_error_str service question query_params st =
  match apply_query_params inherited_attr setattr_other (default_query question) (items query_params) with
  | inl e => (inl e, st)
  | inr query =>
      match wire_messages (messages query) with
      | inl e => (inr (error_response (py_str validation_error_str e)), st)
      | inr wire =>
          let call := (client (fst st), create_params query wire) in
          match service (calls (snd st)) call with
          | inl e => (inr (error_response (py_str validation_error_str e)), after_call call st)
          | inr response =>
              match first_text (Anthropic.content response) with
              | inl e => (inr (error_response (py_str validation_error_str e)), after_call call st)
              | inr text =>
                  (inr {| answer := text;
                          raw_response := Some (Anthropic.model_dump response) |},
                   after_call call st)
              end
          end
      end
  end.
Proof.
  unfold ask, bind, try_except, construct, lift, ret, raise,
    self_client, messages_create, after_call, create_params, error_response.
  cbn [AgentMessage_new AgentQuery_new AgentResponse_new map].
  fold (default_query question).
  destruct query_params as [[| kv rest] |]; cbn [truthy_dict items];
    [cbn [apply_query_params] | | cbn [apply_query_params]];
    try (destruct (apply_query_params inherited_attr setattr_other (default_query question) (kv :: rest))
           as [e | query]; [reflexivity |]);
    cbn [fst snd];
    match goal with
    | |- context [wire_messages (messages ?q)] =>
        destruct (wire_messages (messages q)) as [e | wire]; [reflexivity |]
    end;
    cbn [fst snd];
    match goal with
    | |- context [service ?l ?c] =>
        destruct (service l c) as [e | response]; [reflexivity |]
    end;
    destruct (first_text (Anthropic.content response)) as [e | text]; reflexivity.
Qed.


(** C1: whatever the question and the overrides, when the remote call is
    reached and raises [e], [ask] catches it and returns the response whose
    answer is "Error: " followed by [str(e)] and whose raw response maps
    "error" to [str(e)]; nothing propagates. *)
Theorem ask_catches_remote_failure
    (question : string) (query_params : option PyDict) (st : AskState)
    (query : AgentQuery) (wire : list PyVal) (e : PyException) :
  apply_query_params inherited_attr setattr_other (default_query question) (items query_params) = inr query ->
  wire_messages (messages query) = inr wire ->
  service (calls (snd st)) (client (fst st), create_params query wire) = inl e ->
  ask inherited_attr setattr_other validation_error_str service question query_params st
  = (inr {| answer := "Error: " ++ py_str validation_error_str e;
            raw_response := Some [("error", VStr (py_str validation_error_str e))] |},
     after_call (client (fst st), create_params query wire) st).
Proof.
  intros Hq Hw He. rewrite ask_run, Hq, Hw. cbn zeta. rewrite He. reflexivity.
Qed.

(** C7: when the remote call is reached and replies with a content list
    whose first segment is a text segment, [ask] returns the response whose
    answer is that text and whose raw response is the reply's
    [model_dump()]. *)
Theorem ask_returns_first_text
    (question : string) (query_params : option PyDict) (st : AskState)
    (query : AgentQuery) (wire : list PyVal) (response : Anthropic.Message)
    (text : string) (others : list Anthropic.ContentBlock) :
  apply_query_params inherited_attr setattr_other (default_query question) (items query_params) = inr query ->
  wire_messages (messages query) = inr wire ->
  service (calls (snd st)) (client (fst st), create_params query wire) = inr response ->
  Anthropic.content response = Anthropic.TextBlock text :: others ->
  ask inherited_attr setattr_other validation_error_str service question query_params st
  = (inr {| answer := text;
            raw_response := Some (Anthropic.model_dump response) |},
     after_call (client (fst st), create_params query wire) st).
Proof.
  intros Hq Hw Hr Hc. rewrite ask_run, Hq, Hw. cbn zeta. rewrite Hr, Hc.
  reflexivity.
Qed.

(** C8, as the code has it: for every question and every override mapping
    whose keys are fields of the query or name no attribute of it, the loop
    completes; each field of the resulting query holds the mapping's value
    for its name, or its default; keys that are no fields are ignored, the
    loop running as on the mapping without them; and whenever the message
    list converts, as a list of message objects does element by element
    and in order, [ask] issues exactly one call, carrying the query's
    model, max_tokens and temperature and the converted list. *)
Theorem ask_issues_one_call
    (question : string) (query_params : option PyDict) (st : AskState) :
  (forall key, In key (map fst (items query_params)) ->
               is_field key = true \/ inherited_attr key = false) ->
  exists query,
    apply_query_params inherited_attr setattr_other (default_query question) (items query_params) = inr query /\
    (forall f, is_field f = true ->
       getattr query f = match dict_get f (items query_params) with
                         | Some v => Some v
                         | None => getattr (default_query question) f
                         end) /\
    apply_query_params inherited_attr setattr_other (default_query question)
      (filter (fun kv => is_field (fst kv)) (items query_params)) = inr query /\
    (forall ms, messages query = VList (map VMessage ms) ->
       wire_messages (messages query) = inr (map wire_of ms)) /\
    (forall wire, wire_messages (messages query) = inr wire ->
       snd (ask inherited_attr setattr_other validation_error_str service question query_params st)
       = after_call (client (fst st), create_params query wire) st).
Proof.
  intros Hkeys.
  destruct (apply_query_params_completes inherited_attr setattr_other (items query_params)
              Hkeys (default_query question)) as [query Hq].
  exists query. split; [exact Hq |]. split; [| split; [| split]].
  - intros f Hf. apply (apply_query_params_getattr inherited_attr setattr_other _ Hkeys _ _ Hq f Hf).
  - rewrite (apply_query_params_skips inherited_attr setattr_other (items query_params)) in Hq.
    rewrite <- Hq. f_equal.
    apply filter_ext_in. intros [key value] Hin. cbn [fst].
    unfold hasattr.
    destruct (Hkeys key (in_map fst _ _ Hin)) as [H | H]; rewrite H;
      [reflexivity | symmetry; apply orb_false_r].
  - intros ms Hms. rewrite Hms. unfold wire_messages. cbn [iterate].
    apply wire_each_messages.
  - intros wire Hw. rewrite ask_run, Hq, Hw. cbn zeta.
    destruct (service _ _) as [e | response]; [reflexivity |].
    destruct (first_text _); reflexivity.
Qed.

(** C9: [ask] leaves the agent object as it found it, whatever the
    question, the overrides and the outcome of the remote call: its
    [api_key] and [client] are those from before the call, the agent has no
    other attribute, and the environment is untouched. *)
Theorem ask_leaves_agent_unchanged
    (question : string) (query_params : option PyDict) (st : AskState) :
  fst (snd (ask inherited_attr setattr_other validation_error_str service question query_params st)) = fst st /\
  api_key (fst (snd (ask inherited_attr setattr_other validation_error_str service question query_params st))) = api_key (fst st) /\
  client (fst (snd (ask inherited_attr setattr_other validation_error_str service question query_params st))) = client (fst st) /\
  environ (snd (snd (ask inherited_attr setattr_other validation_error_str service question query_params st))) = environ (snd st).
Proof.
  rewrite ask_run.
  destruct (apply_query_params inherited_attr setattr_other _ _) as [e | query]; [repeat split |].
  destruct (wire_messages _) as [e | wire]; [repeat split |].
  cbn zeta. destruct (service _ _) as [e | response]; [repeat split |].
  destruct (first_text _); repeat split.
Qed.

(** What [ask] adds to the calls: nothing, or the one call of the query
    the loop left. *)
Lemma ask_calls (question : string) (query_params : option PyDict) (st : AskState) :
  calls (snd (snd (ask inherited_attr setattr_other validation_error_str service question query_params st))) = calls (snd st) \/
  exists query wire,
    apply_query_params inherited_attr setattr_other (default_query question) (items query_params) = inr query /\
    wire_messages (messages query) = inr wire /\
    calls (snd (snd (ask inherited_attr setattr_other validation_error_str service question query_params st)))
    = (calls (snd st) ++ [(client (fst st), create_params query wire)])%list.
Proof.
  rewrite ask_run.
  destruct (apply_query_params inherited_attr setattr_other _ _) as [e | query] eqn:Hq; [left; reflexivity |].
  destruct (wire_messages _) as [e | wire] eqn:Hw; [left; reflexivity |].
  right. exists query, wire. split; [reflexivity |]. split; [exact Hw |].
  cbn zeta. destruct (service _ _) as [e | response]; [reflexivity |].
  destruct (first_text _); reflexivity.
Qed.


(** C3, at the input that shows the defect: constructing an [AgentQuery]
    with [temperature=2.0] fails with a [ValidationError], while an
    override of [temperature] to [2.0] is stored unchecked and [ask]
    issues the remote call with it. *)
Theorem ask_temperature_override_unvalidated (question : string) (st : AskState) :
  AgentQuery_new None None None (Some float_2)
  = inl {| title := "AgentQuery"; errors := [("temperature", less_than_equal)] |} /\
  calls (snd (snd (ask inherited_attr setattr_other validation_error_str service question (Some [("temperature", VFloat float_2)]) st)))
  = (calls (snd st)
     ++ [(client (fst st),
          {| Anthropic.model := VStr default_model;
             Anthropic.max_tokens := VInt default_max_tokens;
             Anthropic.temperature := VFloat float_2;
             Anthropic.messages :=
               [wire_of {| role := "user"; content := question |}] |})])%list.
Proof.
  split; [reflexivity |].
  rewrite ask_run.
  cbn [items apply_query_params hasattr is_field existsb String.eqb Ascii.eqb
       Bool.eqb orb].
  cbn.
  destruct (service _ _) as [e | response]; [reflexivity |].
  destruct (first_text _); reflexivity.
Qed.

End AskProperties.

(** ** Constructing the agent *)

(** C6: [ClaudeAgent(api_key)] raises the configuration error exactly when
    neither the argument nor the environment variable ANTHROPIC_API_KEY
    yields a non-empty string; a non-empty argument is the credential
    whatever the environment holds, the environment variable being used
    when the argument yields none; and construction leaves the world as it
    is, issuing no remote call. *)
Theorem ClaudeAgent_init_credential (api_key_arg : option string) (w : World) :
  snd (ClaudeAgent_init api_key_arg w) = w /\
  ((exists msg, fst (ClaudeAgent_init api_key_arg w) = inl (ValueError msg)) <->
   truthy_str api_key_arg = false /\
   truthy_str (environ w "ANTHROPIC_API_KEY") = false) /\
  (forall key, api_key_arg = Some key -> key <> EmptyString ->
     fst (ClaudeAgent_init api_key_arg w)
     = inr {| api_key := key; client := Anthropic.Anthropic key |}) /\
  (forall key, truthy_str api_key_arg = false ->
     environ w "ANTHROPIC_API_KEY" = Some key -> key <> EmptyString ->
     fst (ClaudeAgent_init api_key_arg w)
     = inr {| api_key := key; client := Anthropic.Anthropic key |}).
Proof.
  unfold ClaudeAgent_init, bind, os_environ_get, ret, raise.
  destruct api_key_arg as [[| c k] |]; cbn [truthy_str];
    try destruct (environ w "ANTHROPIC_API_KEY") as [[| c' k'] |] eqn:Henv;
    cbn [fst snd truthy_str];
    (split; [reflexivity |]); (split; [| split]);
    try (split; [intros [msg H]; try discriminate H; split; reflexivity
                | intros [H1 H2]; try discriminate H1; try discriminate H2;
                  eexists; reflexivity]);
    try (intros key H; try discriminate H; injection H as <-; intros Hne;
         try (now contradiction Hne); reflexivity);
    try (intros key H1 H2; try discriminate H1; try discriminate H2;
         injection H2 as <-; intros Hne;
         try (now contradiction Hne); reflexivity).
Qed.

Lemma ClaudeAgent_init_credential_witness :
  fst (ClaudeAgent_init (Some "sk-arg") (world_with_key "sk-env"))
  = inr {| api_key := "sk-arg"; client := Anthropic.Anthropic "sk-arg" |} /\
  fst (ClaudeAgent_init None (world_with_key "sk-env"))
  = inr {| api_key := "sk-env"; client := Anthropic.Anthropic "sk-env" |}.
Proof.
  split.
  - destruct (ClaudeAgent_init_credential (Some "sk-arg") (world_with_key "sk-env"))
      as (_ & _ & H & _).
    apply H; [reflexivity | discriminate].
  - destruct (ClaudeAgent_init_credential None (world_with_key "sk-env"))
      as (_ & _ & _ & H).
    apply H; [reflexivity | reflexivity | discriminate].
Defined.

(** ** Concrete runs *)

Lemma ask_catches_remote_failure_witness :
  ask sample_inherited_attr sample_setattr_other sample_validation_error_str service_down
    "What is the capital of Italy?" None (sample_agent, empty_world)
  = (inr {| answer := "Error: Connection error.";
            raw_response := Some [("error", VStr "Connection error.")] |},
     after_call
       (client sample_agent,
        create_params (default_query "What is the capital of Italy?")
          [wire_of {| role := "user"; content := "What is the capital of Italy?" |}])
       (sample_agent, empty_world)).
Proof.
  apply (ask_catches_remote_failure sample_inherited_attr sample_setattr_other sample_validation_error_str
           service_down "What is the capital of Italy?" None
           (sample_agent, empty_world)
           (default_query "What is the capital of Italy?")
           [wire_of {| role := "user"; content := "What is the capital of Italy?" |}]
           (Exception_ "APIConnectionError" "Connection error."));
    reflexivity.
Defined.

Lemma ask_returns_first_text_witness :
  ask sample_inherited_attr sample_setattr_other sample_validation_error_str service_rome
    "What is the capital of Italy?" None (sample_agent, empty_world)
  = (inr {| answer := "Rome";
            raw_response := Some [("role", VStr "assistant")] |},
     after_call
       (client sample_agent,
        create_params (default_query "What is the capital of Italy?")
          [wire_of {| role := "user"; content := "What is the capital of Italy?" |}])
       (sample_agent, empty_world)).
Proof.
  apply (ask_returns_first_text sample_inherited_attr sample_setattr_other sample_validation_error_str
           service_rome "What is the capital of Italy?" None
           (sample_agent, empty_world)
           (default_query "What is the capital of Italy?")
           [wire_of {| role := "user"; content := "What is the capital of Italy?" |}]
           {| Anthropic.content := [Anthropic.TextBlock "Rome"];
              Anthropic.model_dump := [("role", VStr "assistant")] |}
           "Rome" []);
    reflexivity.
Defined.

(** The claim as the specification words it, for C8: every override mapping
    leads to exactly one remote call.  With "messages" overridden by the
    integer 5 the conversion raises inside [try] and no call is issued. *)
Lemma ask_unusable_messages_no_call :
  ~ (forall query_params : option PyDict,
       exists call,
         calls (snd (snd (ask sample_inherited_attr sample_setattr_other sample_validation_error_str
                            service_rome "x" query_params
                            (sample_agent, empty_world))))
         = [call]).
Proof.
  intros H. destruct (H (Some [("messages", VInt 5)])) as [call Hcall].
  vm_compute in Hcall. discriminate Hcall.
Qed.

(** [ask("x", {"temperature": 0.2, "bogus_field": 1})]: one call, with the
    temperature 0.2 and every other argument at its default. *)
Lemma ask_issues_one_call_witness :
  calls (snd (snd (ask sample_inherited_attr sample_setattr_other sample_validation_error_str
                     service_rome "x"
                     (Some [("temperature", VFloat float_0_2); ("bogus_field", VInt 1)])
                     (sample_agent, empty_world))))
  = [(client sample_agent,
      {| Anthropic.model := VStr default_model;
         Anthropic.max_tokens := VInt default_max_tokens;
         Anthropic.temperature := VFloat float_0_2;
         Anthropic.messages := [wire_of {| role := "user"; content := "x" |}] |})].
Proof.
  destruct (ask_issues_one_call sample_inherited_attr sample_setattr_other sample_validation_error_str
              service_rome "x"
              (Some [("temperature", VFloat float_0_2); ("bogus_field", VInt 1)])
              (sample_agent, empty_world))
    as (query & Hq & _ & _ & _ & Hcall).
  - intros key [<- | [<- | []]]; [left | right]; reflexivity.
  - vm_compute in Hq. injection Hq as <-.
    rewrite (Hcall [wire_of {| role := "user"; content := "x" |}] eq_refl).
    reflexivity.
Defined.



(** ** Further properties of [ask] *)

Section AskFurther.

Variable inherited_attr : string -> bool.
Variable setattr_other : AgentQuery -> string -> PyVal -> PyException + AgentQuery.
Variable validation_error_str : ValidationError -> string.
Variable service : list Anthropic.Call -> Anthropic.Call -> PyException + Anthropic.Message.

(** When the loop raises, the mapping has a key that names an attribute
    and no field. *)
Lemma apply_query_params_raises (kvs : PyDict) :
  forall query e,
    apply_query_params inherited_attr setattr_other query kvs = inl e ->
    exists key,
      In key (map fst kvs) /\ is_field key = false /\ inherited_attr key = true.
Proof.
  induction kvs as [| [key value] rest IH]; intros query e Hrun; [discriminate Hrun |].
  cbn [apply_query_params] in Hrun. unfold hasattr in Hrun.
  destruct (is_field key) eqn:Hkey; cbn [orb] in Hrun.
  - destruct (getattr_setattr setattr_other query key value Hkey) as (q1 & Hset & _).
    rewrite Hset in Hrun. destruct (IH q1 e Hrun) as (k & Hin & Hk).
    exists k. split; [right; exact Hin | exact Hk].
  - destruct (inherited_attr key) eqn:Hinh.
    + exists key. split; [left; reflexivity |]. split; [exact Hkey | exact Hinh].
    + destruct (IH query e Hrun) as (k & Hin & Hk).
      exists k. split; [right; exact Hin | exact Hk].
Qed.

(** Once the loop has completed, [ask] returns a response. *)
Lemma ask_returns_after_loop
    (question : string) (query_params : option PyDict) (st : AskState)
    (query : AgentQuery) :
  apply_query_params inherited_attr setattr_other (default_query question) (items query_params)
  = inr query ->
  exists r, fst (ask inherited_attr setattr_other validation_error_str service
                   question query_params st) = inr r.
Proof.
  intros Hq. rewrite ask_run, Hq.
  destruct (wire_messages _); [eexists; reflexivity |]. cbn zeta.
  destruct (service _ _); [eexists; reflexivity |].
  destruct (first_text _); eexists; reflexivity.
Qed.

(** X1: an exception leaves [ask] only from the override loop: when one
    does, no remote call has been issued, the state being as before the
    call, and the mapping has a key that names an attribute of the query and
    no field of it; for a mapping without such a key, [ask] returns a
    response. *)
Theorem ask_raises_only_from_overrides
    (question : string) (query_params : option PyDict) (st : AskState) :
  (forall e, fst (ask inherited_attr setattr_other validation_error_str service
                    question query_params st) = inl e ->
     snd (ask inherited_attr setattr_other validation_error_str service
            question query_params st) = st /\
     exists key, In key (map fst (items query_params)) /\
                 is_field key = false /\ inherited_attr key = true) /\
  ((forall key, In key (map fst (items query_params)) ->
                is_field key = true \/ inherited_attr key = false) ->
   exists r, fst (ask inherited_attr setattr_other validation_error_str service
                    question query_params st) = inr r).
Proof.
  split.
  - destruct (apply_query_params inherited_attr setattr_other (default_query question)
                (items query_params)) as [e0 | query] eqn:Hq.
    + assert (Hrun : ask inherited_attr setattr_other validation_error_str service
                       question query_params st = (inl e0, st))
        by (rewrite ask_run, Hq; reflexivity).
      rewrite Hrun. cbn [fst snd]. intros e _. split; [reflexivity |].
      apply (apply_query_params_raises _ _ _ Hq).
    + destruct (ask_returns_after_loop question query_params st query Hq) as [r Hr].
      rewrite Hr. intros e He. discriminate He.
  - intros Hkeys.
    destruct (apply_query_params_completes inherited_attr setattr_other
                (items query_params) Hkeys (default_query question)) as [query Hq].
    apply (ask_returns_after_loop question query_params st query Hq).
Qed.

(** X2: keys that name no attribute of the query make no difference: with
    a mapping of such keys only, the empty mapping included, [ask] runs
    exactly as with no mapping. *)
Theorem ask_ignores_unknown_keys
    (question : string) (query_params : option PyDict) (st : AskState) :
  (forall key, In key (map fst (items query_params)) ->
               hasattr inherited_attr (default_query question) key = false) ->
  ask inherited_attr setattr_other validation_error_str service question query_params st
  = ask inherited_attr setattr_other validation_error_str service question None st.
Proof.
  intros Hkeys. rewrite !ask_run.
  rewrite (apply_query_params_skips inherited_attr setattr_other (items query_params)).
  replace (filter (fun kv => hasattr inherited_attr (default_query question) (fst kv))
             (items query_params)) with (@nil (string * PyVal)); [reflexivity |].
  symmetry. induction (items query_params) as [| [k v] rest IH]; [reflexivity |].
  cbn [filter fst]. rewrite (Hkeys k (or_introl eq_refl)).
  apply IH. intros key Hin. apply Hkeys. right. exact Hin.
Qed.

End AskFurther.

Lemma ask_ignores_unknown_keys_witness :
  ask sample_inherited_attr sample_setattr_other sample_validation_error_str service_rome "x"
    (Some [("bogus_field", VInt 1)]) (sample_agent, empty_world)
  = ask sample_inherited_attr sample_setattr_other sample_validation_error_str service_rome "x"
      None (sample_agent, empty_world).
Proof.
  apply (ask_ignores_unknown_keys sample_inherited_attr sample_setattr_other sample_validation_error_str
           service_rome "x" (Some [("bogus_field", VInt 1)])
           (sample_agent, empty_world)).
  intros key [<- | []]. reflexivity.
Defined.

(** [ask("x", {"copy": 1})]: pydantic refuses the name and the exception
    leaves [ask] before any call. *)
Lemma ask_raises_only_from_overrides_witness :
  snd (ask sample_inherited_attr sample_setattr_other sample_validation_error_str
         service_rome "x" (Some [("copy", VInt 1)]) (sample_agent, empty_world))
  = (sample_agent, empty_world) /\
  exists key, In key (map fst (items (Some [("copy", VInt 1)]))) /\
              is_field key = false /\ sample_inherited_attr key = true.
Proof.
  destruct (ask_raises_only_from_overrides sample_inherited_attr sample_setattr_other
              sample_validation_error_str service_rome "x"
              (Some [("copy", VInt 1)]) (sample_agent, empty_world)) as [H _].
  apply (H (ValueError (dquote ++ "AgentQuery" ++ dquote ++ " object has no field "
                          ++ dquote ++ "copy" ++ dquote))).
  reflexivity.
Defined.

(** ** The message list and the reply *)

Section AskEdges.

Variable inherited_attr : string -> bool.
Variable setattr_other : AgentQuery -> string -> PyVal -> PyException + AgentQuery.
Variable validation_error_str : ValidationError -> string.
Variable service : list Anthropic.Call -> Anthropic.Call -> PyException + Anthropic.Message.

(** The conversion stops at the first element that is no message object,
    with the [AttributeError] naming its type. *)
Lemma wire_each_first_bad (ms : list AgentMessage) (x : PyVal) (rest : list PyVal) :
  is_message x = false ->
  wire_each (map VMessage ms ++ x :: rest)
  = inl (AttributeError ("'" ++ type_name x ++ "' object has no attribute 'role'")).
Proof.
  intros Hx. induction ms as [| m ms IH].
  - cbn [map app wire_each]. destruct x; try reflexivity. discriminate Hx.
  - cbn [map app wire_each wire_message]. rewrite IH. reflexivity.
Qed.

(** A list splits into its leading message objects and, if any, the first
    element that is none. *)
Lemma leading_messages (l : list PyVal) :
  (exists ms, l = map VMessage ms) \/
  (exists ms x rest, l = (map VMessage ms ++ x :: rest)%list /\ is_message x = false).
Proof.
  induction l as [| v l IH]; [left; exists []; reflexivity |].
  destruct (is_message v) eqn:Hv.
  - destruct v; try discriminate Hv.
    destruct IH as [[ms ->] | (ms & x & rest & -> & Hx)].
    + left. exists (m :: ms). reflexivity.
    + right. exists (m :: ms), x, rest. split; [reflexivity | exact Hx].
  - right. exists [], v, l. split; [reflexivity | exact Hv].
Qed.

(** X3: the list comprehension over a list succeeds exactly when every
    element is a message object, and then yields one {role, content} dict
    per message, in order; otherwise it raises the [AttributeError] naming
    the type of the first element that is none. *)
Theorem wire_messages_list (l : list PyVal) :
  (forall wire, wire_messages (VList l) = inr wire <->
                exists ms, l = map VMessage ms /\ wire = map wire_of ms) /\
  (forall e, wire_messages (VList l) = inl e <->
             exists ms x rest,
               l = (map VMessage ms ++ x :: rest)%list /\ is_message x = false /\
               e = AttributeError ("'" ++ type_name x
                                     ++ "' object has no attribute 'role'")).
Proof.
  unfold wire_messages. cbn [iterate].
  destruct (leading_messages l) as [[ms ->] | (ms & x & rest & -> & Hx)].
  - rewrite wire_each_messages. split.
    + intros wire. split.
      * intros [= <-]. exists ms. split; reflexivity.
      * intros (ms' & Hms & ->). f_equal.
        clear - Hms. revert ms' Hms.
        induction ms as [| m ms IH]; intros [| m' ms'] H; try discriminate H;
          [reflexivity |].
        cbn [map] in *. injection H as -> H. rewrite (IH ms' H). reflexivity.
    + intros e. split; [discriminate |].
      intros (ms' & x & rest & Hl & Hx & _). exfalso.
      clear - Hl Hx. revert ms' Hl.
      induction ms as [| m ms IH]; intros [| m' ms'] H; cbn [map app] in H.
      * discriminate H.
      * discriminate H.
      * injection H as <- _. discriminate Hx.
      * injection H as _ H. apply (IH ms' H).
  - rewrite (wire_each_first_bad ms x rest Hx). split.
    + intros wire. split; [discriminate |].
      intros (ms' & Hl & _). exfalso.
      clear - Hl Hx. revert ms' Hl.
      induction ms as [| m ms IH]; intros [| m' ms'] H; cbn [map app] in H.
      * discriminate H.
      * injection H as -> _. discriminate Hx.
      * discriminate H.
      * injection H as _ H. apply (IH ms' H).
    + intros e. split.
      * intros [= <-]. exists ms, x, rest. auto.
      * intros (ms' & x' & rest' & Hl & Hx' & ->). do 3 f_equal.
        clear - Hl Hx Hx'. revert ms' Hl.
        induction ms as [| m ms IH]; intros [| m' ms'] H; cbn [map app] in H.
        -- injection H as -> _. reflexivity.
        -- injection H as -> _. discriminate Hx.
        -- injection H as <- _. discriminate Hx'.
        -- injection H as _ H. apply (IH ms' H).
Qed.

End AskEdges.

(** ** Overrides as the service sees them, and replies without a text *)

Section AskReplies.

Variable inherited_attr : string -> bool.
Variable setattr_other : AgentQuery -> string -> PyVal -> PyException + AgentQuery.
Variable validation_error_str : ValidationError -> string.
Variable service : list Anthropic.Call -> Anthropic.Call -> PyException + Anthropic.Message.

(** What the run of [ask] leaves, once the query and its wire list are known. *)
Lemma ask_state_after_call
    (question : string) (query_params : option PyDict) (st : AskState)
    (query : AgentQuery) (wire : list PyVal) :
  apply_query_params inherited_attr setattr_other (default_query question) (items query_params)
  = inr query ->
  wire_messages (messages query) = inr wire ->
  snd (ask inherited_attr setattr_other validation_error_str service question query_params st)
  = after_call (client (fst st), create_params query wire) st.
Proof.
  intros Hq Hw. rewrite ask_run, Hq, Hw. cbn zeta.
  destruct (service _ _); [reflexivity |].
  destruct (first_text _); reflexivity.
Qed.

(** X4: an override of [model], [max_tokens] or [temperature] reaches the
    service as it was given, whatever its type and range: [ask] issues its
    one call with that value in that argument and the defaults in the
    others. *)
Theorem ask_passes_overrides_through (question : string) (v : PyVal) (st : AskState) :
  snd (ask inherited_attr setattr_other validation_error_str service question
         (Some [("model", v)]) st)
  = after_call
      (client (fst st),
       {| Anthropic.model := v;
          Anthropic.max_tokens := VInt default_max_tokens;
          Anthropic.temperature := VFloat default_temperature;
          Anthropic.messages := [wire_of {| role := "user"; content := question |}] |})
      st /\
  snd (ask inherited_attr setattr_other validation_error_str service question
         (Some [("max_tokens", v)]) st)
  = after_call
      (client (fst st),
       {| Anthropic.model := VStr default_model;
          Anthropic.max_tokens := v;
          Anthropic.temperature := VFloat default_temperature;
          Anthropic.messages := [wire_of {| role := "user"; content := question |}] |})
      st /\
  snd (ask inherited_attr setattr_other validation_error_str service question
         (Some [("temperature", v)]) st)
  = after_call
      (client (fst st),
       {| Anthropic.model := VStr default_model;
          Anthropic.max_tokens := VInt default_max_tokens;
          Anthropic.temperature := v;
          Anthropic.messages := [wire_of {| role := "user"; content := question |}] |})
      st.
Proof.
  pose (q := default_query question).
  pose (wire := [wire_of {| role := "user"; content := question |}]).
  split; [| split].
  - apply (ask_state_after_call question (Some [("model", v)]) st
             {| messages := messages q; model := v;
                max_tokens := max_tokens q; temperature := temperature q |} wire);
      reflexivity.
  - apply (ask_state_after_call question (Some [("max_tokens", v)]) st
             {| messages := messages q; model := model q;
                max_tokens := v; temperature := temperature q |} wire);
      reflexivity.
  - apply (ask_state_after_call question (Some [("temperature", v)]) st
             {| messages := messages q; model := model q;
                max_tokens := max_tokens q; temperature := v |} wire);
      reflexivity.
Qed.

(** X5: a reply that carries no text is turned into an error response
    although the call went through: with an empty content list the answer
    is "Error: list index out of range", and with a first segment of a
    class that has no [text] it names that class. *)
Theorem ask_reply_without_text
    (question : string) (query_params : option PyDict) (st : AskState)
    (query : AgentQuery) (wire : list PyVal) (response : Anthropic.Message) :
  apply_query_params inherited_attr setattr_other (default_query question) (items query_params)
  = inr query ->
  wire_messages (messages query) = inr wire ->
  service (calls (snd st)) (client (fst st), create_params query wire) = inr response ->
  (Anthropic.content response = [] ->
   ask inherited_attr setattr_other validation_error_str service question query_params st
   = (inr (error_response "list index out of range"),
      after_call (client (fst st), create_params query wire) st)) /\
  (forall cls others,
     Anthropic.content response = Anthropic.OtherBlock cls :: others ->
     ask inherited_attr setattr_other validation_error_str service question query_params st
     = (inr (error_response ("'" ++ cls ++ "' object has no attribute 'text'")),
        after_call (client (fst st), create_params query wire) st)).
Proof.
  intros Hq Hw Hr. split.
  - intros Hc. rewrite ask_run, Hq, Hw. cbn zeta. rewrite Hr, Hc. reflexivity.
  - intros cls others Hc. rewrite ask_run, Hq, Hw. cbn zeta. rewrite Hr, Hc.
    reflexivity.
Qed.

(** X6: when "messages" is overridden by a list holding something that is
    no message object (a dict in the wire shape, say), [ask] issues no call
    and returns the error response of the [AttributeError] naming the type
    of the first such element. *)
Theorem ask_messages_not_objects
    (question : string) (query_params : option PyDict) (st : AskState)
    (ms : list AgentMessage) (x : PyVal) (rest : list PyVal) :
  well_formed_dict (items query_params) ->
  (forall key, In key (map fst (items query_params)) ->
               is_field key = true \/ inherited_attr key = false) ->
  In ("messages", VList (map VMessage ms ++ x :: rest)) (items query_params) ->
  is_message x = false ->
  ask inherited_attr setattr_other validation_error_str service question query_params st
  = (inr (error_response ("'" ++ type_name x ++ "' object has no attribute 'role'")),
     st).
Proof.
  intros Hwf Hkeys Hin Hx.
  destruct (apply_query_params_completes inherited_attr setattr_other (items query_params)
              Hkeys (default_query question)) as [query Hq].
  pose proof (apply_query_params_getattr inherited_attr setattr_other _ Hkeys _ _ Hq
                "messages" eq_refl) as Hm.
  rewrite (dict_get_In _ _ _ Hwf Hin) in Hm. cbn in Hm. injection Hm as Hm.
  rewrite ask_run, Hq, Hm. unfold wire_messages. cbn [iterate].
  rewrite (wire_each_first_bad ms x rest Hx). reflexivity.
Qed.


(** X8: one call does not leak into the next: the overrides of a first
    [ask] leave no trace on the agent, so the call a second [ask] issues
    after it is the very call it would have issued without the first. *)
Theorem ask_twice_independent
    (question1 question2 : string) (params1 params2 : option PyDict)
    (st : AskState) (call : Anthropic.Call) :
  calls (snd (snd (ask inherited_attr setattr_other validation_error_str service
                     question2 params2 st)))
  = (calls (snd st) ++ [call])%list ->
  let st1 := snd (ask inherited_attr setattr_other validation_error_str service
                    question1 params1 st) in
  calls (snd (snd (ask inherited_attr setattr_other validation_error_str service
                     question2 params2 st1)))
  = (calls (snd st1) ++ [call])%list.
Proof.
  intros Hcall st1.
  assert (Hagent : fst st1 = fst st).
  { unfold st1. rewrite ask_run.
    destruct (apply_query_params _ _ _); [reflexivity |].
    destruct (wire_messages _); [reflexivity |]. cbn zeta.
    destruct (service _ _); [reflexivity |].
    destruct (first_text _); reflexivity. }
  destruct (ask_calls inherited_attr setattr_other validation_error_str service
              question2 params2 st) as [Hsame | (query & wire & Hq & Hw & Hc)].
  - exfalso. rewrite Hsame in Hcall.
    apply (f_equal (@length _)) in Hcall. rewrite length_app in Hcall.
    cbn in Hcall. clear - Hcall. lia.
  - rewrite Hc in Hcall. apply app_inv_head in Hcall. injection Hcall as <-.
    rewrite (ask_state_after_call question2 params2 st1 query wire Hq Hw).
    rewrite Hagent. reflexivity.
Qed.

End AskReplies.

(** ** The agent's credential, and the entry point *)

(** Construction leaves the world as it is. *)
Lemma ClaudeAgent_init_world (api_key_arg : option string) (w : World) :
  snd (ClaudeAgent_init api_key_arg w) = w.
Proof.
  unfold ClaudeAgent_init, bind, os_environ_get, ret, raise.
  destruct (truthy_str api_key_arg).
  - destruct api_key_arg as [[| c k] |]; reflexivity.
  - destruct (environ w "ANTHROPIC_API_KEY") as [[| c k] |]; reflexivity.
Qed.

(** X9: an agent that was constructed holds a non-empty credential, the one
    [api_key or os.environ.get(...)] selects, and its client was built
    from that same credential. *)
Theorem ClaudeAgent_init_invariant
    (api_key_arg : option string) (w : World) (agent : ClaudeAgent) :
  fst (ClaudeAgent_init api_key_arg w) = inr agent ->
  api_key agent <> EmptyString /\
  Some (api_key agent) = py_or api_key_arg (environ w "ANTHROPIC_API_KEY") /\
  client agent = Anthropic.Anthropic (api_key agent).
Proof.
  unfold ClaudeAgent_init, bind, os_environ_get, ret, raise, py_or.
  destruct (truthy_str api_key_arg).
  - destruct api_key_arg as [[| c k] |]; cbn [fst]; intros [= <-];
      repeat split; discriminate.
  - destruct (environ w "ANTHROPIC_API_KEY") as [[| c k] |]; cbn [fst];
      intros [= <-]; repeat split; discriminate.
Qed.

Lemma ClaudeAgent_init_invariant_witness :
  api_key {| api_key := "sk-env"; client := Anthropic.Anthropic "sk-env" |}
  <> EmptyString /\
  Some (api_key {| api_key := "sk-env"; client := Anthropic.Anthropic "sk-env" |})
  = py_or (Some EmptyString) (environ (world_with_key "sk-env") "ANTHROPIC_API_KEY") /\
  client {| api_key := "sk-env"; client := Anthropic.Anthropic "sk-env" |}
  = Anthropic.Anthropic
      (api_key {| api_key := "sk-env"; client := Anthropic.Anthropic "sk-env" |}).
Proof.
  apply (ClaudeAgent_init_invariant (Some EmptyString) (world_with_key "sk-env")).
  reflexivity.
Defined.

Section EntryPoint.

Variable inherited_attr : string -> bool.
Variable setattr_other : AgentQuery -> string -> PyVal -> PyException + AgentQuery.
Variable validation_error_str : ValidationError -> string.
Variable service : list Anthropic.Call -> Anthropic.Call -> PyException + Anthropic.Message.

(** X10: the credential the service sees is the agent's: every call that
    [ask] issues on an agent constructed from an argument and an
    environment goes through a client holding the credential that
    [api_key or os.environ.get(...)] selected. *)
Theorem ask_uses_constructed_credential
    (api_key_arg : option string) (w : World) (agent : ClaudeAgent)
    (question : string) (query_params : option PyDict) (call : Anthropic.Call) :
  fst (ClaudeAgent_init api_key_arg w) = inr agent ->
  calls (snd (snd (ask inherited_attr setattr_other validation_error_str service
                     question query_params (agent, w))))
  = (calls w ++ [call])%list ->
  Some (Anthropic.api_key (fst call))
  = py_or api_key_arg (environ w "ANTHROPIC_API_KEY").
Proof.
  intros Hinit Hcall.
  destruct (ClaudeAgent_init_invariant api_key_arg w agent Hinit) as (_ & Hkey & Hcl).
  destruct (ask_calls inherited_attr setattr_other validation_error_str service
              question query_params (agent, w))
    as [Hsame | (query & wire & _ & _ & Hc)]; cbn [fst snd] in *.
  - exfalso. rewrite Hsame in Hcall.
    apply (f_equal (@length _)) in Hcall. rewrite length_app in Hcall.
    cbn in Hcall. clear - Hcall. lia.
  - rewrite Hc in Hcall. apply app_inv_head in Hcall. injection Hcall as <-.
    cbn [fst]. rewrite Hcl. cbn [Anthropic.api_key]. exact Hkey.
Qed.

End EntryPoint.

Section MainProperties.

Variable inherited_attr : string -> bool.
Variable setattr_other : AgentQuery -> string -> PyVal -> PyException + AgentQuery.
Variable validation_error_str : ValidationError -> string.
Variable service : list Anthropic.Call -> Anthropic.Call -> PyException + Anthropic.Message.

(** With a non-empty credential in the environment and no argument, the
    agent is built from the environment. *)
Lemma ClaudeAgent_init_from_environ (w : World) (key : string) :
  environ w "ANTHROPIC_API_KEY" = Some key -> key <> EmptyString ->
  ClaudeAgent_init None w
  = (inr {| api_key := key; client := Anthropic.Anthropic key |}, w).
Proof.
  intros Henv Hne. unfold ClaudeAgent_init, bind, os_environ_get, ret, raise.
  cbn [truthy_str]. rewrite Henv.
  destruct key as [| c k]; [now contradiction Hne | reflexivity].
Qed.

(** Without one, construction raises the configuration error. *)
Lemma ClaudeAgent_init_no_credential (w : World) :
  truthy_str (environ w "ANTHROPIC_API_KEY") = false ->
  ClaudeAgent_init None w
  = (inl (ValueError "ANTHROPIC_API_KEY must be provided either as an argument or as an environment variable"), w).
Proof.
  intros Henv. unfold ClaudeAgent_init, bind, os_environ_get, ret, raise.
  cbn [truthy_str].
  destruct (environ w "ANTHROPIC_API_KEY") as [[| c k] |];
    [reflexivity | discriminate Henv | reflexivity].
Qed.

(** The run of [main], by the outcome of the construction and of [ask]. *)
Lemma main_run (st : MainState) :
  main inherited_attr setattr_other validation_error_str service st =
  match fst (ClaudeAgent_init None (fst st)) with
  | inl e =>
      (inr tt, (fst st,
                (snd st ++ [("An error occurred: " ++ py_str validation_error_str e)%string])%list))
  | inr agent =>
      match ask inherited_attr setattr_other validation_error_str service
              "What is the capital of Italy?" None (agent, fst st) with
      | (inr response, (_, w)) =>
          (inr tt, (w, (snd st ++ main_output (answer response))%list))
      | (inl e, (_, w)) =>
          (inr tt, (w, (snd st ++ ["Asking Claude: What is the capital of Italy?";
                                   ("An error occurred: "
                                      ++ py_str validation_error_str e)%string])%list))
      end
  end.
Proof.
  unfold main, try_except, bind, in_world, on_agent, print, ret.
  pose proof (ClaudeAgent_init_world None (fst st)) as Hw.
  destruct (ClaudeAgent_init None (fst st)) as [[e | agent] w].
  - cbn [fst snd] in *. subst w. reflexivity.
  - cbn [fst snd] in *. subst w.
    destruct (ask inherited_attr setattr_other validation_error_str service
                "What is the capital of Italy?" None (agent, fst st))
      as [[e | response] [agent' w']]; cbn [fst snd].
    + rewrite <- app_assoc. reflexivity.
    + unfold main_output. rewrite <- !app_assoc. reflexivity.
Qed.

(** X11: [main] never lets an exception out, whatever the environment and
    the service do; it only adds to what was printed, and it issues at most
    one remote call. *)
Theorem main_never_raises (st : MainState) :
  fst (main inherited_attr setattr_other validation_error_str service st) = inr tt /\
  (exists printed,
     snd (snd (main inherited_attr setattr_other validation_error_str service st))
     = (snd st ++ printed)%list /\ printed <> []) /\
  environ (fst (snd (main inherited_attr setattr_other validation_error_str service st)))
  = environ (fst st) /\
  (calls (fst (snd (main inherited_attr setattr_other validation_error_str service st)))
   = calls (fst st) \/
   exists call,
     calls (fst (snd (main inherited_attr setattr_other validation_error_str service st)))
     = (calls (fst st) ++ [call])%list).
Proof.
  rewrite main_run.
  destruct (fst (ClaudeAgent_init None (fst st))) as [e | agent].
  - cbn [fst snd]. split; [reflexivity |].
    split; [eexists; split; [reflexivity | discriminate] |].
    split; [reflexivity | left; reflexivity].
  - pose proof (ask_calls inherited_attr setattr_other validation_error_str service
                  "What is the capital of Italy?" None (agent, fst st)) as Hc.
    assert (He : environ (snd (snd (ask inherited_attr setattr_other validation_error_str service
                  "What is the capital of Italy?" None (agent, fst st))))
                 = environ (fst st)).
    { rewrite ask_run. cbn [items apply_query_params].
      destruct (wire_messages _); [reflexivity |]. cbn zeta.
      destruct (service _ _); [reflexivity |].
      destruct (first_text _); reflexivity. }
    destruct (ask inherited_attr setattr_other validation_error_str service
                "What is the capital of Italy?" None (agent, fst st))
      as [[e | response] [agent' w']]; cbn [fst snd] in *.
    + split; [reflexivity |].
      split; [eexists; split; [reflexivity | discriminate] |].
      split; [exact He |].
      destruct Hc as [Hc | (query & wire & _ & _ & Hc)];
        [left; exact Hc | right; eexists; exact Hc].
    + split; [reflexivity |].
      split; [eexists; split; [reflexivity | discriminate] |].
      split; [exact He |].
      destruct Hc as [Hc | (query & wire & _ & _ & Hc)];
        [left; exact Hc | right; eexists; exact Hc].
Qed.

(** X12: without a credential in the environment, [main] prints the one
    line "An error occurred: " followed by the configuration error's text,
    and nothing else: the question is not announced and no remote call is
    issued. *)
Theorem main_without_credential (st : MainState) :
  truthy_str (environ (fst st) "ANTHROPIC_API_KEY") = false ->
  main inherited_attr setattr_other validation_error_str service st
  = (inr tt,
     (fst st,
      (snd st ++ ["An error occurred: ANTHROPIC_API_KEY must be provided either as an argument or as an environment variable"])%list)).
Proof.
  intros Henv. rewrite main_run, (ClaudeAgent_init_no_credential (fst st) Henv).
  reflexivity.
Qed.

(** X13: with a credential in the environment and a reply whose first
    segment is a text, [main] issues the one call for the fixed question,
    with the default arguments and that credential, and prints the
    announcement, the header, and the reply's text between two lines of 50
    dashes. *)
Theorem main_prints_answer
    (st : MainState) (key : string) (response : Anthropic.Message)
    (text : string) (others : list Anthropic.ContentBlock) :
  environ (fst st) "ANTHROPIC_API_KEY" = Some key -> key <> EmptyString ->
  service (calls (fst st)) (main_call key) = inr response ->
  Anthropic.content response = Anthropic.TextBlock text :: others ->
  main inherited_attr setattr_other validation_error_str service st
  = (inr tt, (record_call (main_call key) (fst st),
              (snd st ++ main_output text)%list)).
Proof.
  intros Henv Hne Hr Hc.
  rewrite main_run, (ClaudeAgent_init_from_environ (fst st) key Henv Hne).
  cbn [fst]. rewrite ask_run. cbn [items apply_query_params].
  change (wire_messages (messages (default_query "What is the capital of Italy?")))
    with (@inr PyException _
            [wire_of {| role := "user"; content := "What is the capital of Italy?" |}]).
  cbn zeta. cbn [fst snd client].
  fold (main_call key). rewrite Hr, Hc. reflexivity.
Qed.

(** X14: a failure of the remote call does not reach the handler of
    [main]: with a credential in the environment and a service that raises
    [e], [main] prints "Error: " followed by [str(e)] as the answer,
    between the two lines of dashes, and no "An error occurred" line. *)
Theorem main_prints_remote_failure
    (st : MainState) (key : string) (e : PyException) :
  environ (fst st) "ANTHROPIC_API_KEY" = Some key -> key <> EmptyString ->
  service (calls (fst st)) (main_call key) = inl e ->
  main inherited_attr setattr_other validation_error_str service st
  = (inr tt, (record_call (main_call key) (fst st),
              (snd st
               ++ main_output ("Error: " ++ py_str validation_error_str e)%string)%list)).
Proof.
  intros Henv Hne Hr.
  rewrite main_run, (ClaudeAgent_init_from_environ (fst st) key Henv Hne).
  cbn [fst]. rewrite ask_run. cbn [items apply_query_params].
  change (wire_messages (messages (default_query "What is the capital of Italy?")))
    with (@inr PyException _
            [wire_of {| role := "user"; content := "What is the capital of Italy?" |}]).
  cbn zeta. cbn [fst snd client].
  fold (main_call key). rewrite Hr. reflexivity.
Qed.

End MainProperties.

(** ** The order of the overrides *)

Section OverrideOrder.

Variable inherited_attr : string -> bool.
Variable setattr_other : AgentQuery -> string -> PyVal -> PyException + AgentQuery.
Variable validation_error_str : ValidationError -> string.
Variable service : list Anthropic.Call -> Anthropic.Call -> PyException + Anthropic.Message.

(** The value a key has is one the mapping lists for it. *)
Lemma dict_get_Some_In (d : PyDict) (key : string) :
  forall v, dict_get key d = Some v -> In (key, v) d.
Proof.
  induction d as [| [k w] rest IH]; intros v E; [discriminate E |].
  cbn [dict_get] in E.
  destruct (dict_get key rest) as [v' |].
  - injection E as <-. right. apply IH. reflexivity.
  - destruct (String.eqb k key) eqn:Ek; [| discriminate E].
    injection E as <-. apply String.eqb_eq in Ek. subst k. left. reflexivity.
Qed.

(** Two well-formed mappings with the same bindings give every key the
    same value. *)
Lemma dict_get_Permutation (d1 d2 : PyDict) (key : string) :
  well_formed_dict d1 -> Permutation d1 d2 -> dict_get key d1 = dict_get key d2.
Proof.
  intros Hwf1 Hperm.
  assert (Hwf2 : well_formed_dict d2).
  { unfold well_formed_dict in *.
    apply (Permutation_NoDup (Permutation_map fst Hperm) Hwf1). }
  destruct (dict_get key d1) as [v |] eqn:E1.
  - symmetry. apply (dict_get_In d2 key v Hwf2).
    apply (Permutation_in _ Hperm). apply dict_get_Some_In, E1.
  - destruct (dict_get key d2) as [v |] eqn:E2; [| reflexivity].
    apply dict_get_Some_In in E2.
    apply (Permutation_in _ (Permutation_sym Hperm)) in E2.
    rewrite (dict_get_In d1 key v Hwf1 E2) in E1. discriminate E1.
Qed.

(** A query is its four fields. *)
Lemma getattr_ext (q1 q2 : AgentQuery) :
  (forall f, is_field f = true -> getattr q1 f = getattr q2 f) -> q1 = q2.
Proof.
  intros H.
  pose proof (H "messages" eq_refl) as H1. pose proof (H "model" eq_refl) as H2.
  pose proof (H "max_tokens" eq_refl) as H3. pose proof (H "temperature" eq_refl) as H4.
  cbn in H1, H2, H3, H4. destruct q1, q2. cbn in *. congruence.
Qed.

(** X15: the order in which a mapping lists its overrides does not matter:
    for two well-formed mappings with the same bindings, whose keys are
    fields of the query or name no attribute of it, [ask] runs the same. *)
Theorem ask_override_order
    (question : string) (d1 d2 : PyDict) (st : AskState) :
  well_formed_dict d1 ->
  Permutation d1 d2 ->
  (forall key, In key (map fst d1) ->
               is_field key = true \/ inherited_attr key = false) ->
  ask inherited_attr setattr_other validation_error_str service question (Some d1) st
  = ask inherited_attr setattr_other validation_error_str service question (Some d2) st.
Proof.
  intros Hwf Hperm Hkeys.
  assert (Hkeys2 : forall key, In key (map fst d2) ->
                     is_field key = true \/ inherited_attr key = false).
  { intros key Hin. apply Hkeys.
    apply (Permutation_in _ (Permutation_sym (Permutation_map fst Hperm))), Hin. }
  destruct (apply_query_params_completes inherited_attr setattr_other d1 Hkeys
              (default_query question)) as [q1 Hq1].
  destruct (apply_query_params_completes inherited_attr setattr_other d2 Hkeys2
              (default_query question)) as [q2 Hq2].
  assert (Heq : q1 = q2).
  { apply getattr_ext. intros f Hf.
    rewrite (apply_query_params_getattr inherited_attr setattr_other _ Hkeys _ _ Hq1 f Hf).
    rewrite (apply_query_params_getattr inherited_attr setattr_other _ Hkeys2 _ _ Hq2 f Hf).
    rewrite (dict_get_Permutation d1 d2 f Hwf Hperm). reflexivity. }
  rewrite !ask_run. cbn [items]. rewrite Hq1, Hq2, Heq. reflexivity.
Qed.

End OverrideOrder.

(** ** Which bound a refused temperature broke *)

(** X16: a float that denotes a number below 0 is refused with the error
    [greater_than_equal], one that denotes a number above 1 with
    [less_than_equal]. *)
Theorem check_temperature_kind (t : spec_float) (q : Q) :
  is_float t = true ->
  SF2Q t = Some q ->
  ((q < 0)%Q -> check_temperature t = [("temperature", greater_than_equal)]) /\
  ((1 < q)%Q -> check_temperature t = [("temperature", less_than_equal)]).
Proof.
  intros Hf Hq. unfold check_temperature.
  destruct t as [s | s | | s m e]; try discriminate Hq.
  - cbn in Hq. injection Hq as <-. split; intros H; exfalso; revert H;
      unfold Qlt; cbn; discriminate.
  - destruct s.
    + change (SFleb (S754_finite true m e) float_1) with true.
      change (SFleb float_0 (S754_finite true m e)) with false. cbn [negb].
      split; [reflexivity |]. intros H. exfalso.
      apply (neg_finite m e q Hq). apply Qlt_le_weak.
      apply (Qlt_trans 0 1 q); [reflexivity | exact H].
    + change (SFleb float_0 (S754_finite false m e)) with true. cbn [negb].
      pose proof (nonneg_finite m e q Hq) as H0.
      pose proof (finite_le_1 m e Hf) as Hle. rewrite Hq in Hle.
      split; intros H.
      * exfalso. apply (Qlt_not_le _ _ H), H0.
      * destruct (SFleb (S754_finite false m e) float_1); [| reflexivity].
        exfalso. apply (Qlt_not_le _ _ H). apply Hle. reflexivity.
Qed.

(** ** Concrete runs of the further properties *)

Lemma ask_reply_without_text_witness :
  ask sample_inherited_attr sample_setattr_other sample_validation_error_str service_empty "x" None
    (sample_agent, empty_world)
  = (inr (error_response "list index out of range"),
     after_call
       (client sample_agent,
        create_params (default_query "x") [wire_of {| role := "user"; content := "x" |}])
       (sample_agent, empty_world)).
Proof.
  destruct (ask_reply_without_text sample_inherited_attr sample_setattr_other sample_validation_error_str
              service_empty "x" None (sample_agent, empty_world)
              (default_query "x") [wire_of {| role := "user"; content := "x" |}]
              {| Anthropic.content := [];
                 Anthropic.model_dump := [("role", VStr "assistant")] |}
              eq_refl eq_refl eq_refl) as [H _].
  apply H. reflexivity.
Defined.

(** [ask("x", {"messages": [{"role": "user", "content": "hi"}]})] *)
Lemma ask_messages_not_objects_witness :
  ask sample_inherited_attr sample_setattr_other sample_validation_error_str service_rome "x"
    (Some [("messages", VList [VDict [("role", VStr "user"); ("content", VStr "hi")]])])
    (sample_agent, empty_world)
  = (inr (error_response "'dict' object has no attribute 'role'"),
     (sample_agent, empty_world)).
Proof.
  apply (ask_messages_not_objects sample_inherited_attr sample_setattr_other sample_validation_error_str
           service_rome "x"
           (Some [("messages",
                   VList [VDict [("role", VStr "user"); ("content", VStr "hi")]])])
           (sample_agent, empty_world) []
           (VDict [("role", VStr "user"); ("content", VStr "hi")]) []).
  - repeat constructor. intros [].
  - intros key [<- | []]. left. reflexivity.
  - left. reflexivity.
  - reflexivity.
Defined.


Lemma ask_twice_independent_witness :
  calls (snd (snd (ask sample_inherited_attr sample_setattr_other sample_validation_error_str service_rome
                     "second" None
                     (snd (ask sample_inherited_attr sample_setattr_other sample_validation_error_str
                             service_rome "first"
                             (Some [("temperature", VFloat float_0_2)])
                             (sample_agent, empty_world))))))
  = (calls (snd (snd (ask sample_inherited_attr sample_setattr_other sample_validation_error_str
                        service_rome "first"
                        (Some [("temperature", VFloat float_0_2)])
                        (sample_agent, empty_world))))
     ++ [(client sample_agent,
          create_params (default_query "second")
            [wire_of {| role := "user"; content := "second" |}])])%list.
Proof.
  apply (ask_twice_independent sample_inherited_attr sample_setattr_other sample_validation_error_str
           service_rome "first" "second"
           (Some [("temperature", VFloat float_0_2)]) None
           (sample_agent, empty_world)).
  reflexivity.
Defined.

Lemma ask_uses_constructed_credential_witness :
  Some (Anthropic.api_key
          (fst (Anthropic.Anthropic "sk-arg",
                create_params (default_query "x")
                  [wire_of {| role := "user"; content := "x" |}])))
  = py_or (Some "sk-arg") (environ (world_with_key "sk-env") "ANTHROPIC_API_KEY").
Proof.
  apply (ask_uses_constructed_credential sample_inherited_attr sample_setattr_other
           sample_validation_error_str service_rome
           (Some "sk-arg") (world_with_key "sk-env")
           {| api_key := "sk-arg"; client := Anthropic.Anthropic "sk-arg" |}
           "x" None); reflexivity.
Defined.

Lemma main_without_credential_witness :
  main sample_inherited_attr sample_setattr_other sample_validation_error_str service_rome (empty_world, [])
  = (inr tt,
     (empty_world,
      ["An error occurred: ANTHROPIC_API_KEY must be provided either as an argument or as an environment variable"])).
Proof.
  apply (main_without_credential sample_inherited_attr sample_setattr_other sample_validation_error_str
           service_rome (empty_world, [])).
  reflexivity.
Defined.

Lemma main_prints_answer_witness :
  main sample_inherited_attr sample_setattr_other sample_validation_error_str service_rome
    (world_with_key "sk-env", [])
  = (inr tt, (record_call (main_call "sk-env") (world_with_key "sk-env"),
              main_output "Rome")).
Proof.
  apply (main_prints_answer sample_inherited_attr sample_setattr_other sample_validation_error_str
           service_rome (world_with_key "sk-env", []) "sk-env"
           {| Anthropic.content := [Anthropic.TextBlock "Rome"];
              Anthropic.model_dump := [("role", VStr "assistant")] |}
           "Rome" []);
    try reflexivity; discriminate.
Defined.

Lemma main_prints_remote_failure_witness :
  main sample_inherited_attr sample_setattr_other sample_validation_error_str service_down
    (world_with_key "sk-env", [])
  = (inr tt, (record_call (main_call "sk-env") (world_with_key "sk-env"),
              main_output "Error: Connection error.")).
Proof.
  apply (main_prints_remote_failure sample_inherited_attr sample_setattr_other sample_validation_error_str
           service_down (world_with_key "sk-env", []) "sk-env"
           (Exception_ "APIConnectionError" "Connection error."));
    try reflexivity; discriminate.
Defined.

Lemma ask_override_order_witness :
  ask sample_inherited_attr sample_setattr_other sample_validation_error_str service_rome "x"
    (Some [("temperature", VFloat float_0_2); ("max_tokens", VInt 5)])
    (sample_agent, empty_world)
  = ask sample_inherited_attr sample_setattr_other sample_validation_error_str service_rome "x"
      (Some [("max_tokens", VInt 5); ("temperature", VFloat float_0_2)])
      (sample_agent, empty_world).
Proof.
  apply (ask_override_order sample_inherited_attr sample_setattr_other sample_validation_error_str
           service_rome "x").
  - repeat constructor; cbn; intuition discriminate.
  - apply perm_swap.
  - intros key [<- | [<- | []]]; left; reflexivity.
Defined.

Lemma check_temperature_kind_witness :
  check_temperature float_2 = [("temperature", less_than_equal)].
Proof.
  destruct (check_temperature_kind float_2 (4503599627370496 # 2251799813685248)
              eq_refl eq_refl) as [_ H].
  apply H. reflexivity.
Defined.
